(** * Sell summary report: aggregation and rendering

    A shallow embedding of [sell_summary_report.py]:
    [parse_order_time], [generate_summary_data_sell] and the tabular part of
    [export_summary_to_excel_sell], followed by the properties of the
    aggregation contract.

    Python values are the JSON-like values the brokerage API hands back
    (null, booleans, integers, strings, lists, dictionaries).  Floating-point
    numbers are outside this value universe.  Strings are sequences of
    one-byte characters.  Exceptions and console output are explicit: every
    operation that can raise returns an [outcome], and every function that
    prints returns the printed lines next to its outcome. *)

From Stdlib Require Import ZArith Ascii String List Lia Bool.
From stdpp Require Import gmap strings list pretty.
Import ListNotations.

Set Warnings "-register-all".

(** ** Python values *)

Module Py.

Inductive pykey :=
| KInt (z : Z)
| KStr (s : string).

Inductive pyval :=
| VNone
| VBool (b : bool)
| VInt (z : Z)
| VStr (s : string)
| VList (l : list pyval)
| VDict (d : list (pykey * pyval)).

(** A dictionary is its item list in insertion order; its keys are distinct,
    and a lookup takes the first item with the key. *)
Definition pydict := list (pykey * pyval).

Inductive exn :=
| ValueError
| TypeError
| KeyError (k : pykey)
| AttributeError
| IndexError.

Inductive outcome (A : Type) :=
| Ok (a : A)
| Raise (e : exn).
Arguments Ok {A} a.
Arguments Raise {A} e.

Definition obind {A B} (c : outcome A) (k : A -> outcome B) : outcome B :=
  match c with
  | Ok a => k a
  | Raise e => Raise e
  end.

Definition key_eqb (a b : pykey) : bool :=
  match a, b with
  | KInt x, KInt y => Z.eqb x y
  | KStr x, KStr y => String.eqb x y
  | _, _ => false
  end.

Fixpoint lookup_item (k : pykey) (d : pydict) : option pyval :=
  match d with
  | [] => None
  | (k', v) :: d' => if key_eqb k k' then Some v else lookup_item k d'
  end.

(** [x.get(k)]: only dictionaries have the method. *)
Definition get (x : pyval) (k : string) : outcome (option pyval) :=
  match x with
  | VDict d => Ok (lookup_item (KStr k) d)
  | _ => Raise AttributeError
  end.

(** [x.get(k, dflt)] *)
Definition get_default (x : pyval) (k : string) (dflt : pyval) : outcome pyval :=
  obind (get x k) (fun o => Ok (default dflt o)).

(** [x.get(k)], where an absent key gives [None] *)
Definition get_none (x : pyval) (k : string) : outcome pyval :=
  get_default x k VNone.

(** [x[k]] for a string [k] *)
Definition subscript (x : pyval) (k : string) : outcome pyval :=
  match x with
  | VDict d =>
      match lookup_item (KStr k) d with
      | Some v => Ok v
      | None => Raise (KeyError (KStr k))
      end
  | _ => Raise TypeError
  end.

(** [x.items()] *)
Definition items (x : pyval) : outcome (list (pykey * pyval)) :=
  match x with
  | VDict d => Ok d
  | _ => Raise AttributeError
  end.

Definition val_of_key (k : pykey) : pyval :=
  match k with
  | KInt z => VInt z
  | KStr s => VStr s
  end.

Fixpoint chars (s : string) : list pyval :=
  match s with
  | EmptyString => []
  | String c s' => VStr (String c EmptyString) :: chars s'
  end.

(** [for x in v]: the elements the loop visits. *)
Definition iter (v : pyval) : outcome (list pyval) :=
  match v with
  | VList l => Ok l
  | VDict d => Ok (map (fun kv => val_of_key (fst kv)) d)
  | VStr s => Ok (chars s)
  | _ => Raise TypeError
  end.

(** Truth value, as used by [or], [if x] and [not x]. *)
Definition truthy (v : pyval) : bool :=
  match v with
  | VNone => false
  | VBool b => b
  | VInt z => negb (Z.eqb z 0)
  | VStr s => negb (String.eqb s "")
  | VList l => match l with [] => false | _ => true end
  | VDict d => match d with [] => false | _ => true end
  end.

(** [a or b] *)
Definition por (a b : pyval) : pyval := if truthy a then a else b.

(** [v == 'lit'] for a string literal *)
Definition eq_str (v : pyval) (lit : string) : bool :=
  match v with
  | VStr s => String.eqb s lit
  | _ => false
  end.

(** *** Strings *)

(** White space of text, as [str.isspace] and the pattern [\s] see it. *)
Definition is_space (c : ascii) : bool :=
  let n := nat_of_ascii c in
  ((9 <=? n)%nat && (n <=? 13)%nat) || ((28 <=? n)%nat && (n <=? 32)%nat)
  || (n =? 133)%nat || (n =? 160)%nat.

(** The blanks [int()] skips around a number: the ASCII ones, and the
    non-ASCII white space it first rewrites to a blank. *)
Definition is_int_space (c : ascii) : bool :=
  let n := nat_of_ascii c in
  ((9 <=? n)%nat && (n <=? 13)%nat) || (n =? 32)%nat
  || (n =? 133)%nat || (n =? 160)%nat.

Definition is_digit (c : ascii) : bool :=
  let n := nat_of_ascii c in (48 <=? n)%nat && (n <=? 57)%nat.

Definition digit_val (c : ascii) : Z := Z.of_nat (nat_of_ascii c) - 48.

Fixpoint lstrip (s : string) : string :=
  match s with
  | EmptyString => EmptyString
  | String c s' => if is_int_space c then lstrip s' else s
  end.

Fixpoint rstrip (s : string) : string :=
  match s with
  | EmptyString => EmptyString
  | String c s' =>
      match rstrip s' with
      | EmptyString => if is_int_space c then EmptyString else String c EmptyString
      | r => String c r
      end
  end.

Definition strip (s : string) : string := lstrip (rstrip s).

Definition upper_char (c : ascii) : ascii :=
  let n := nat_of_ascii c in
  if (97 <=? n)%nat && (n <=? 122)%nat then ascii_of_nat (n - 32) else c.

Fixpoint upper (s : string) : string :=
  match s with
  | EmptyString => EmptyString
  | String c s' => String (upper_char c) (upper s')
  end.

(** Decimal digits with single underscores between digits. *)
Fixpoint parse_digits (s : string) (acc : Z) (after_digit : bool) : option Z :=
  match s with
  | EmptyString => if after_digit then Some acc else None
  | String c s' =>
      if is_digit c then parse_digits s' (10 * acc + digit_val c)%Z true
      else if Ascii.eqb c "_" && after_digit then parse_digits s' acc false
      else None
  end.

(** [int(s)] for a string, base ten. *)
Definition int_of_string (s : string) : option Z :=
  match strip s with
  | String "-" r => Z.opp <$> parse_digits r 0 false
  | String "+" r => parse_digits r 0 false
  | t => parse_digits t 0 false
  end.

Definition Z_of_bool (b : bool) : Z := if b then 1%Z else 0%Z.

(** [int(v)] *)
Definition int (v : pyval) : outcome Z :=
  match v with
  | VInt z => Ok z
  | VBool b => Ok (Z_of_bool b)
  | VStr s =>
      match int_of_string s with
      | Some z => Ok z
      | None => Raise ValueError
      end
  | _ => Raise TypeError
  end.

(** [int(k)] for a dictionary key *)
Definition int_key (k : pykey) : outcome Z := int (val_of_key k).

(** [str(k)] for a dictionary key, as interpolated by an f-string *)
Definition str_key (k : pykey) : string :=
  match k with
  | KInt z => pretty z
  | KStr s => s
  end.

(** [v - n] for an integer [n] *)
Definition sub_int (v : pyval) (n : Z) : outcome Z :=
  match v with
  | VInt z => Ok (z - n)%Z
  | VBool b => Ok (Z_of_bool b - n)%Z
  | _ => Raise TypeError
  end.

(** [s.upper()] *)
Definition str_upper (v : pyval) : outcome string :=
  match v with
  | VStr s => Ok (upper s)
  | _ => Raise AttributeError
  end.

(** [s[:n]] *)
Fixpoint take_str (n : nat) (s : string) : string :=
  match n, s with
  | S n', String c s' => String c (take_str n' s')
  | _, _ => EmptyString
  end.

End Py.

(** ** Timestamps

    [datetime.strptime] as the standard library implements it: the format
    is turned into a regular expression (one named group per directive, a run
    of blanks in the format becoming [\s+]), the expression is matched
    case-insensitively at the start of the text, leftover text is an error,
    and the captured fields must make a valid date and time.  Month
    abbreviations are the English ones. *)

Module Datetime.
Import Py.

Record datetime := mk_datetime {
  year : Z; month : Z; day : Z;
  hour : Z; minute : Z; second : Z; microsecond : Z
}.

Definition fields (d : datetime) : list Z :=
  [year d; month d; day d; hour d; minute d; second d; microsecond d].

Fixpoint lex_ltb (a b : list Z) : bool :=
  match a, b with
  | x :: a', y :: b' => Z.ltb x y || (Z.eqb x y && lex_ltb a' b')
  | _, _ => false
  end.

(** [a < b] on naive datetimes *)
Definition ltb (a b : datetime) : bool := lex_ltb (fields a) (fields b).

(** [a >= b] *)
Definition geb (a b : datetime) : bool := negb (ltb a b).

Definition atom := ascii -> bool.

Definition range (lo hi : ascii) : atom :=
  fun c => (nat_of_ascii lo <=? nat_of_ascii c)%nat
           && (nat_of_ascii c <=? nat_of_ascii hi)%nat.

Definition one (x : ascii) : atom := fun c => Ascii.eqb c x.

(** a letter, matched without regard to case *)
Definition letter (x : ascii) : atom :=
  fun c => Ascii.eqb (upper_char c) (upper_char x).

Definition digit : atom := range "0" "9".

Inductive token :=
| TLit (c : ascii)                              (* a literal character *)
| TSpaces                                       (* \s+ *)
| TGroup (name : ascii) (alts : list (list atom)) (* (?P<name>a1|a2|...) *)
| TFrac.                                        (* (?P<f>[0-9]{1,6}) *)

Fixpoint word (s : string) : list atom :=
  match s with
  | EmptyString => []
  | String c s' => letter c :: word s'
  end.

(** The group of a directive; an unknown directive matches nothing. *)
Definition directive (d : ascii) : token :=
  if Ascii.eqb d "Y" then TGroup d [[digit; digit; digit; digit]]
  else if Ascii.eqb d "m" then
    TGroup d [[one "1"; range "0" "2"]; [one "0"; range "1" "9"]; [range "1" "9"]]
  else if Ascii.eqb d "d" then
    TGroup d [[one "3"; range "0" "1"]; [range "1" "2"; digit];
              [one "0"; range "1" "9"]; [range "1" "9"]; [one " "; range "1" "9"]]
  else if Ascii.eqb d "H" then
    TGroup d [[one "2"; range "0" "3"]; [range "0" "1"; digit]; [digit]]
  else if Ascii.eqb d "M" then
    TGroup d [[range "0" "5"; digit]; [digit]]
  else if Ascii.eqb d "S" then
    TGroup d [[one "6"; range "0" "1"]; [range "0" "5"; digit]; [digit]]
  else if Ascii.eqb d "b" then
    TGroup d (map word ["jan"; "feb"; "mar"; "apr"; "may"; "jun";
                        "jul"; "aug"; "sep"; "oct"; "nov"; "dec"])
  else if Ascii.eqb d "f" then TFrac
  else TGroup d [].

Fixpoint pattern_go (after_space : bool) (fmt : string) : list token :=
  match fmt with
  | EmptyString => []
  | String c rest =>
      if is_space c then
        if after_space then pattern_go true rest
        else TSpaces :: pattern_go true rest
      else if Ascii.eqb c "%" then
        match rest with
        | String d rest' => directive d :: pattern_go false rest'
        | EmptyString => [TGroup c []]
        end
      else TLit c :: pattern_go false rest
  end.

Definition pattern (fmt : string) : list token := pattern_go false fmt.

Definition captures := list (ascii * string).

(** One alternative of a group: its atoms, one character each. *)
Fixpoint match_alt (a : list atom) (s : string) : option (string * string) :=
  match a with
  | [] => Some (EmptyString, s)
  | p :: a' =>
      match s with
      | String c s' =>
          if p c then
            match match_alt a' s' with
            | Some (tok, rest) => Some (String c tok, rest)
            | None => None
            end
          else None
      | EmptyString => None
      end
  end.

(** Alternatives in order; a later one is tried when the rest of the
    expression fails after an earlier one. *)
Fixpoint match_alts {R} (alts : list (list atom)) (s : string)
    (k : string -> string -> option R) : option R :=
  match alts with
  | [] => None
  | a :: alts' =>
      match match_alt a s with
      | Some (tok, rest) =>
          match k tok rest with
          | Some r => Some r
          | None => match_alts alts' s k
          end
      | None => match_alts alts' s k
      end
  end.

(** One up to [n] characters of a class, longest first. *)
Fixpoint match_some {R} (p : atom) (n : nat) (s : string)
    (k : string -> string -> option R) : option R :=
  match n, s with
  | S n', String c s' =>
      if p c then
        match match_some p n' s' (fun tok rest => k (String c tok) rest) with
        | Some r => Some r
        | None => k (String c EmptyString) s'
        end
      else None
  | _, _ => None
  end.

Definition match_token (t : token) (s : string)
    (k : string -> option (captures * string)) : option (captures * string) :=
  match t with
  | TLit x =>
      match s with
      | String c s' => if letter x c then k s' else None
      | EmptyString => None
      end
  | TSpaces => match_some is_space (String.length s) s (fun _ rest => k rest)
  | TGroup name alts =>
      match_alts alts s (fun tok rest =>
        match k rest with
        | Some (caps, r) => Some ((name, tok) :: caps, r)
        | None => None
        end)
  | TFrac =>
      match_some digit 6 s (fun tok rest =>
        match k rest with
        | Some (caps, r) => Some (("f"%char, tok) :: caps, r)
        | None => None
        end)
  end.

(** Match at the start of the text; the result carries the unmatched rest. *)
Fixpoint re_match (ts : list token) (s : string) : option (captures * string) :=
  match ts with
  | [] => Some ([], s)
  | t :: ts' => match_token t s (re_match ts')
  end.

Fixpoint capture (name : ascii) (caps : captures) : option string :=
  match caps with
  | [] => None
  | (n, tok) :: caps' => if Ascii.eqb n name then Some tok else capture name caps'
  end.

(** A numeric group, with the default used when the format lacks it. *)
Definition field (name : ascii) (dflt : Z) (caps : captures) : Z :=
  match capture name caps with
  | Some tok => default dflt (int_of_string tok)
  | None => dflt
  end.

Fixpoint index_of (w : string) (names : list string) (i : Z) : option Z :=
  match names with
  | [] => None
  | n :: names' =>
      if String.eqb (upper w) (upper n) then Some i else index_of w names' (i + 1)%Z
  end.

Definition month_of (caps : captures) : Z :=
  match capture "b" caps with
  | Some w =>
      default 1%Z (index_of w ["jan"; "feb"; "mar"; "apr"; "may"; "jun";
                               "jul"; "aug"; "sep"; "oct"; "nov"; "dec"] 1)
  | None => field "m" 1 caps
  end.

Fixpoint pad_zeros (n : nat) (s : string) : string :=
  match n with
  | O => EmptyString
  | S n' =>
      match s with
      | String c s' => String c (pad_zeros n' s')
      | EmptyString => String "0" (pad_zeros n' EmptyString)
      end
  end.

Definition fraction_of (caps : captures) : Z :=
  match capture "f" caps with
  | Some tok => default 0%Z (int_of_string (pad_zeros 6 tok))
  | None => 0%Z
  end.

Definition is_leap (y : Z) : bool :=
  (Z.eqb (y mod 4) 0 && negb (Z.eqb (y mod 100) 0)) || Z.eqb (y mod 400) 0.

Definition days_in_month (y m : Z) : Z :=
  if Z.eqb m 2 then (if is_leap y then 29 else 28)%Z
  else if Z.eqb m 4 || Z.eqb m 6 || Z.eqb m 9 || Z.eqb m 11 then 30%Z
  else 31%Z.

Definition between (lo x hi : Z) : bool := Z.leb lo x && Z.leb x hi.

(** The checks of the [datetime] constructor. *)
Definition valid (d : datetime) : bool :=
  between 1 (year d) 9999 && between 1 (month d) 12
  && between 1 (day d) (days_in_month (year d) (month d))
  && between 0 (hour d) 23 && between 0 (minute d) 59
  && between 0 (second d) 59 && between 0 (microsecond d) 999999.

Definition of_captures (caps : captures) : datetime :=
  {| year := field "Y" 1900 caps; month := month_of caps;
     day := field "d" 1 caps; hour := field "H" 0 caps;
     minute := field "M" 0 caps; second := field "S" 0 caps;
     microsecond := fraction_of caps |}.

(** [datetime.strptime(data, fmt)] for a string [data] *)
Definition strptime (data fmt : string) : outcome datetime :=
  match re_match (pattern fmt) data with
  | None => Raise ValueError
  | Some (caps, rest) =>
      match rest with
      | EmptyString =>
          let d := of_captures caps in
          if valid d then Ok d else Raise ValueError
      | _ => Raise ValueError
      end
  end.

End Datetime.


(** ** Console output and exceptions *)

Module Report.
Import Py Datetime.

(** The lines the module prints, one constructor per [print] call. *)
Inductive logmsg :=
| WarnTimestamp (ts_str : pyval)
| ApiNotFound (client_id : string)
| FetchError (client_id : string) (msg : string)
| PositionError (client_id : string) (e : exn)
| HoldingError (client_id : string) (e : exn)
| OrderError (client_id : string) (e : exn)
| InstrumentError (ex_id : pykey) (client_id : string) (e : exn).

(** A computation prints lines and then returns or raises. *)
Definition M (A : Type) : Type := (list logmsg * outcome A)%type.

Definition ret {A} (a : A) : M A := ([], Ok a).

Definition raise {A} (e : exn) : M A := ([], Raise e).

Definition lift {A} (o : outcome A) : M A := ([], o).

Definition print (m : logmsg) : M unit := ([m], Ok tt).

Definition bind {A B} (c : M A) (k : A -> M B) : M B :=
  match c with
  | (l, Ok a) => let (l', r) := k a in (l ++ l', r)
  | (l, Raise e) => (l, Raise e)
  end.

(** [try: c  except Exception as e: h e] *)
Definition try_except {A} (c : M A) (h : exn -> M A) : M A :=
  match c with
  | (l, Raise e) => let (l', r) := h e in (l ++ l', r)
  | ok => ok
  end.

Notation "x <- c ;; k" := (bind c (fun x => k))
  (at level 100, c at next level, right associativity).
Notation "c ;;; k" := (bind c (fun _ => k))
  (at level 100, right associativity).

(** [for x in l: a = f a x] *)
Fixpoint for_each {A B} (f : A -> B -> M A) (a : A) (l : list B) : M A :=
  match l with
  | [] => ret a
  | x :: l' => a' <- f a x ;; for_each f a' l'
  end.

(** ** parse_order_time *)

Definition formats : list string :=
  [ "%Y-%m-%d %H:%M:%S.%f";
    "%Y-%m-%d %H:%M:%S";
    "%d-%m-%Y %H:%M:%S";
    "%m/%d/%Y %H:%M:%S";
    "%d-%b-%Y %H:%M:%S" ].

(** [datetime.strptime(ts_str, fmt)]: the first argument must be a string. *)
Definition py_strptime (ts_str : pyval) (fmt : string) : outcome datetime :=
  match ts_str with
  | VStr s => strptime s fmt
  | _ => Raise TypeError
  end.

(** The [for fmt in (...)] loop: [Ok None] when it runs to its end. *)
Fixpoint try_formats (ts_str : pyval) (fmts : list string) : outcome (option datetime) :=
  match fmts with
  | [] => Ok None
  | fmt :: rest =>
      match py_strptime ts_str fmt with
      | Ok d => Ok (Some d)
      | Raise ValueError => try_formats ts_str rest
      | Raise e => Raise e
      end
  end.

Definition parse_order_time (ts_str : pyval) : M (option datetime) :=
  match try_formats ts_str formats with
  | Ok (Some d) => ret (Some d)
  | Ok None => print (WarnTimestamp ts_str) ;;; ret None
  | Raise e => raise e
  end.

(** ** generate_summary_data_sell *)

(** The brokerage API handle of one client: each call returns or raises. *)
Inductive call_result :=
| Returns (v : pyval)
| Raises (msg : string).

Record api := {
  get_order_book : string -> call_result;
  get_position_daywise : string -> call_result;
  get_holding : string -> call_result
}.

(** The three calls of the [try] block, in order. *)
Definition fetch (a : api) (client_id : string) : string + (pyval * pyval * pyval) :=
  match get_order_book a client_id with
  | Raises msg => inl msg
  | Returns order_book_response =>
      match get_position_daywise a client_id with
      | Raises msg => inl msg
      | Returns pos_response =>
          match get_holding a client_id with
          | Raises msg => inl msg
          | Returns holding_response =>
              inr (order_book_response, pos_response, holding_response)
          end
      end
  end.

Record position := { trading_symbol : pyval; quantity : pyval }.

Record holding := { holding_quantity : pyval; buy_avg_price : pyval }.

Record tally := { executed : Z; open : Z; rejected : Z }.

Definition zero_tally : tally := {| executed := 0; open := 0; rejected := 0 |}.

(** *** Live positions *)

Definition position_inst_id (pos : pyval) : outcome pyval :=
  obind (get_none pos "ExchangeInstrumentID") (fun a =>
  if truthy a then Ok a else
  obind (get_none pos "ExchangeNSEInstrumentID") (fun b =>
  if truthy b then Ok b else
  get_none pos "ExchangeNSEInstrumentId")).

Definition position_step (client_id : string)
    (live_positions : gmap Z position) (pos : pyval) : M (gmap Z position) :=
  inst_id <- lift (position_inst_id pos) ;;
  if truthy inst_id then
    try_except
      (i <- lift (int inst_id) ;;
       sym <- lift (get_default pos "TradingSymbol" (VStr "N/A")) ;;
       qty <- lift (get_default pos "Quantity" (VInt 0)) ;;
       ret (<[i := {| trading_symbol := sym; quantity := qty |}]> live_positions))
      (fun e => print (PositionError client_id e) ;;; ret live_positions)
  else ret live_positions.

Definition process_positions (client_id : string) (pos_response : pyval)
    : M (gmap Z position) :=
  ty <- lift (get_none pos_response "type") ;;
  if eq_str ty "success" then
    result <- lift (subscript pos_response "result") ;;
    position_list <- lift (get_default result "positionList" (VList [])) ;;
    records <- lift (iter position_list) ;;
    for_each (position_step client_id) ∅ records
  else ret ∅.

(** *** Holdings *)

Definition holding_inst_id (h : pyval) : outcome pyval :=
  obind (get_none h "ExchangeNSEInstrumentID") (fun a =>
  if truthy a then Ok a else
  get_none h "ExchangeNSEInstrumentId").

Definition holding_step (client_id : string)
    (holdings : gmap Z holding) (item : pykey * pyval) : M (gmap Z holding) :=
  let h := snd item in
  inst_id <- lift (holding_inst_id h) ;;
  if truthy inst_id then
    try_except
      (i <- lift (int inst_id) ;;
       qty <- lift (get_default h "HoldingQuantity" (VInt 0)) ;;
       price <- lift (get_default h "BuyAvgPrice" (VInt 0)) ;;
       ret (<[i := {| holding_quantity := qty; buy_avg_price := price |}]> holdings))
      (fun e => print (HoldingError client_id e) ;;; ret holdings)
  else ret holdings.

Definition process_holdings (client_id : string) (holding_response : pyval)
    : M (gmap Z holding) :=
  ty <- lift (get_none holding_response "type") ;;
  if eq_str ty "success" then
    result <- lift (subscript holding_response "result") ;;
    rms <- lift (subscript result "RMSHoldings") ;;
    hs <- lift (subscript rms "Holdings") ;;
    its <- lift (items hs) ;;
    for_each (holding_step client_id) ∅ its
  else ret ∅.

(** *** Orders *)

(** [instrument_orders[inst_id][field] += quantity] on the [defaultdict] *)
Definition bump (f : tally -> tally) (inst_id : Z) (m : gmap Z tally) : gmap Z tally :=
  <[inst_id := f (default zero_tally (m !! inst_id))]> m.

Definition add_executed (q : Z) (t : tally) : tally :=
  {| executed := executed t + q; open := open t; rejected := rejected t |}.
Definition add_open (q : Z) (t : tally) : tally :=
  {| executed := executed t; open := open t + q; rejected := rejected t |}.
Definition add_rejected (q : Z) (t : tally) : tally :=
  {| executed := executed t; open := open t; rejected := rejected t + q |}.

(** The body of the order loop below the timestamp test. *)
Definition tally_order (instrument_orders : gmap Z tally) (order : pyval)
    : M (gmap Z tally) :=
  raw_id <- lift (get_default order "ExchangeInstrumentID" (VInt 0)) ;;
  inst_id <- lift (int raw_id) ;;
  if Z.eqb inst_id 0 then ret instrument_orders else
  raw_status <- lift (get_default order "OrderStatus" (VStr "")) ;;
  status <- lift (str_upper raw_status) ;;
  raw_quantity <- lift (get_default order "OrderQuantity" (VInt 0)) ;;
  quantity <- lift (int raw_quantity) ;;
  if String.eqb status "FILLED" then
    ret (bump (add_executed quantity) inst_id instrument_orders)
  else if String.eqb status "OPEN" then
    ret (bump (add_open quantity) inst_id instrument_orders)
  else if String.eqb status "REJECTED" then
    ret (bump (add_rejected quantity) inst_id instrument_orders)
  else ret instrument_orders.

Definition order_body (order_start_time : datetime)
    (instrument_orders : gmap Z tally) (order : pyval) : M (gmap Z tally) :=
  ts <- lift (get_default order "OrderDateTime" (VStr "")) ;;
  order_time <- parse_order_time ts ;;
  match order_time with
  | None => ret instrument_orders
  | Some t =>
      if Datetime.ltb t order_start_time then ret instrument_orders
      else tally_order instrument_orders order
  end.

Definition order_step (client_id : string) (order_start_time : datetime)
    (instrument_orders : gmap Z tally) (order : pyval) : M (gmap Z tally) :=
  try_except (order_body order_start_time instrument_orders order)
    (fun e => print (OrderError client_id e) ;;; ret instrument_orders).

Definition process_orders (client_id : string) (order_start_time : datetime)
    (order_book_response : pyval) : M (gmap Z tally) :=
  ty <- lift (get_none order_book_response "type") ;;
  orders <- (if eq_str ty "success"
             then lift (get_default order_book_response "result" (VList []))
             else ret (VList [])) ;;
  records <- lift (iter orders) ;;
  for_each (order_step client_id order_start_time) ∅ records.

(** *** Summary rows *)

Record SummaryRow := {
  Instrument : pyval;
  Target : pyval;
  Executed : Z;
  Open : Z;
  Rejected : Z;
  Live_Pos : pyval;
  Holding : pyval;
  Remaining : Z
}.

Definition build_row (stock_details : pydict)
    (live_positions : gmap Z position) (holdings : gmap Z holding)
    (instrument_orders : gmap Z tally)
    (ex_id : pykey) (target_qty : pyval) : outcome SummaryRow :=
  obind (int_key ex_id) (fun ex_id_int =>
  obind (get_default (default (VDict []) (lookup_item (KInt ex_id_int) stock_details))
           "name" (VStr ("ID:" +:+ str_key ex_id))) (fun stock_name =>
  let orders_data := default zero_tally (instrument_orders !! ex_id_int) in
  let live_qty :=
    match live_positions !! ex_id_int with
    | Some p => quantity p
    | None => VInt 0
    end in
  let holding_qty :=
    match holdings !! ex_id_int with
    | Some h => holding_quantity h
    | None => VInt 0
    end in
  obind (sub_int holding_qty (executed orders_data)) (fun remaining =>
  Ok {| Instrument := stock_name;
        Target := target_qty;
        Executed := executed orders_data;
        Open := open orders_data;
        Rejected := rejected orders_data;
        Live_Pos := live_qty;
        Holding := holding_qty;
        Remaining := remaining |}))).

Definition row_step (client_id : string) (stock_details : pydict)
    (live_positions : gmap Z position) (holdings : gmap Z holding)
    (instrument_orders : gmap Z tally)
    (client_summary : list SummaryRow) (item : pykey * pyval)
    : M (list SummaryRow) :=
  let (ex_id, target_qty) := item in
  try_except
    (r <- lift (build_row stock_details live_positions holdings
                  instrument_orders ex_id target_qty) ;;
     ret (client_summary ++ [r]))
    (fun e => print (InstrumentError ex_id client_id e) ;;; ret client_summary).

(** [summary_data[client_id] = client_summary] on an insertion-ordered dict *)
Fixpoint dict_set {V} (k : string) (v : V) (d : list (string * V)) : list (string * V) :=
  match d with
  | [] => [(k, v)]
  | (k', v') :: d' =>
      if String.eqb k k' then (k, v) :: d' else (k', v') :: dict_set k v d'
  end.

Definition summary := list (string * list SummaryRow).

(** The part of the client loop below the [try] block of the three calls. *)
Definition summarise_client (order_start_time : datetime) (stock_details : pydict)
    (client_id : string) (params : pyval)
    (order_book_response pos_response holding_response : pyval)
    : M (list SummaryRow) :=
  live_positions <- process_positions client_id pos_response ;;
  holdings <- process_holdings client_id holding_response ;;
  instrument_orders <- process_orders client_id order_start_time order_book_response ;;
  targets <- lift (get_default params "total_quantity_to_sell" (VDict [])) ;;
  pairs <- lift (items targets) ;;
  for_each (row_step client_id stock_details live_positions holdings instrument_orders)
    [] pairs.

Definition client_step (order_start_time : datetime) (stock_details : pydict)
    (client_apis : gmap string api)
    (summary_data : summary) (entry : string * pyval) : M summary :=
  let (client_id, params) := entry in
  match client_apis !! client_id with
  | None => print (ApiNotFound client_id) ;;; ret summary_data
  | Some a =>
      match fetch a client_id with
      | inl msg => print (FetchError client_id msg) ;;; ret summary_data
      | inr (order_book_response, pos_response, holding_response) =>
          client_summary <- summarise_client order_start_time stock_details
                              client_id params
                              order_book_response pos_response holding_response ;;
          ret (dict_set client_id client_summary summary_data)
      end
  end.

(** [client_details] is the item list of the configuration dictionary. *)
Definition generate_summary_data_sell (client_details : list (string * pyval))
    (order_start_time : datetime) (stock_details : pydict)
    (client_apis : gmap string api) : M summary :=
  for_each (client_step order_start_time stock_details client_apis) [] client_details.

End Report.

(** ** export_summary_to_excel_sell

    The tabular content written to the workbook: per client the frame of its
    rows with the totals row appended, as the sequence of [to_excel] calls,
    and the close of the writer at the end of the [with] block. *)

Module Excel.
Import Py Report.

(** A summary row as the dictionary the generator appends. *)
Definition row_dict (r : SummaryRow) : list (string * pyval) :=
  [ ("Instrument", Instrument r);
    ("Target", Target r);
    ("Executed", VInt (Executed r));
    ("Open", VInt (Open r));
    ("Rejected", VInt (Rejected r));
    ("Live Pos", Live_Pos r);
    ("Holding", Holding r);
    ("Remaining", VInt (Remaining r)) ].

Record DataFrame := {
  columns : list string;
  records : list (list (string * pyval))
}.

Definition has_column (cols : list string) (c : string) : bool :=
  existsb (String.eqb c) cols.

(** Column labels in order of first appearance. *)
Definition add_columns (cols : list string) (r : list (string * pyval)) : list string :=
  fold_left (fun acc kv => if has_column acc (fst kv) then acc else acc ++ [fst kv]) r cols.

Fixpoint cell (c : string) (r : list (string * pyval)) : pyval :=
  match r with
  | [] => VNone
  | (k, v) :: r' => if String.eqb c k then v else cell c r'
  end.

(** [pd.DataFrame(instruments)]: an empty list gives a frame without columns. *)
Definition frame_of (instruments : list (list (string * pyval))) : DataFrame :=
  {| columns := fold_left add_columns instruments []; records := instruments |}.

(** [df[cols]] for labels that are all columns of [df] *)
Definition select (df : DataFrame) (cols : list string) : DataFrame :=
  {| columns := cols;
     records := map (fun r => map (fun c => (c, cell c r)) cols) (records df) |}.

(** [df[c]] *)
Definition column (df : DataFrame) (c : string) : outcome (list pyval) :=
  if has_column (columns df) c then Ok (map (cell c) (records df))
  else Raise (KeyError (KStr c)).

(** [pd.concat([df, pd.DataFrame([row])], ignore_index=True)] *)
Definition concat_row (df : DataFrame) (row : list (string * pyval)) : DataFrame :=
  {| columns := add_columns (columns df) row; records := records df ++ [row] |}.

Definition desired_columns : list string :=
  ["Instrument"; "Target"; "Executed"; "Open"; "Rejected"; "Live Pos"; "Holding"; "Remaining"].

(** What one [to_excel] call writes. *)
Record sheet := { sheet_name : string; content : DataFrame }.

Section Renderer.

(** [Series.sum()] of the spreadsheet library, on the cells of one column. *)
Variable series_sum : list pyval -> outcome pyval.

Definition column_sum (df : DataFrame) (c : string) : outcome pyval :=
  obind (column df c) series_sum.

Definition with_totals (instruments : list SummaryRow) : outcome DataFrame :=
  let df := frame_of (map row_dict instruments) in
  let df := select df (filter (has_column (columns df)) desired_columns) in
  obind (column_sum df "Target") (fun target =>
  obind (column_sum df "Executed") (fun executed =>
  obind (column_sum df "Open") (fun open =>
  obind (column_sum df "Rejected") (fun rejected =>
  obind (column_sum df "Live Pos") (fun live_pos =>
  obind (column_sum df "Holding") (fun holding =>
  obind (column_sum df "Remaining") (fun remaining =>
  Ok (concat_row df
        [ ("Instrument", VStr "TOTAL");
          ("Target", target);
          ("Executed", executed);
          ("Open", open);
          ("Rejected", rejected);
          ("Live Pos", live_pos);
          ("Holding", holding);
          ("Remaining", remaining) ])))))))).

(** The loop over [summary_data.items()] inside the [with] block: the sheets
    written by [to_excel] so far, and the exception that ended the loop if
    one did. *)
Fixpoint write_sheets (summary_data : summary) : list sheet * option exn :=
  match summary_data with
  | [] => ([], None)
  | (client, instruments) :: rest =>
      match with_totals instruments with
      | Raise e => ([], Some e)
      | Ok df =>
          let (sheets, err) := write_sheets rest in
          ({| sheet_name := take_str 31 client; content := df |} :: sheets, err)
      end
  end.

(** Leaving the [with] block closes the writer, which saves the workbook: a
    workbook without any sheet cannot be saved and the close raises
    IndexError, whatever happened in the block; otherwise the workbook is
    saved and an exception of the block goes on. *)
Definition export_summary_to_excel_sell (summary_data : summary) : outcome (list sheet) :=
  let (sheets, err) := write_sheets summary_data in
  match sheets with
  | [] => Raise IndexError
  | _ :: _ =>
      match err with
      | Some e => Raise e
      | None => Ok sheets
      end
  end.


(** [generate_excel_summary_sell] *)
Definition generate_excel_summary_sell (client_details : list (string * pyval))
    (order_start_time : Datetime.datetime) (stock_details : pydict)
    (client_apis : gmap string api) : M (list sheet) :=
  summary_data <- generate_summary_data_sell client_details order_start_time
                    stock_details client_apis ;;
  lift (export_summary_to_excel_sell summary_data).

End Renderer.

(** *** Sheet layout, fills and column widths *)

(** The rows [to_excel(index=False)] writes, top to bottom: the header, then
    the records. *)
Definition worksheet_rows (df : DataFrame) : list (list pyval) :=
  map VStr (columns df)
  :: map (fun r => map (fun c => cell c r) (columns df)) (records df).

(** The cells of worksheet row [r]; worksheet rows are numbered from 1. *)
Definition worksheet_row (df : DataFrame) (r : nat) : option (list pyval) :=
  match r with
  | O => None
  | S k => worksheet_rows df !! k
  end.

(** The fill of worksheet row [r] after the two formatting loops: the first
    fills row 1, the second fills row [len(df)]. *)
Definition row_fill (df : DataFrame) (r : nat) : option string :=
  if Nat.eqb r (length (records df)) then Some "E6E6E6"
  else if Nat.eqb r 1 then Some "CCCCCC"
  else None.

(** The inner loop of the width adjustment, over the [str()] renderings of
    one column's cells. *)
Definition max_length (rendered : list string) : nat :=
  fold_left (fun m s => if (m <? String.length s)%nat then String.length s else m)
    rendered 0%nat.

Definition adjusted_width (rendered : list string) : nat :=
  (max_length rendered + 2)%nat.

Definition int64_range (z : Z) : Prop := (- 2 ^ 63 <= z < 2 ^ 63)%Z.

Definition sumZ (l : list Z) : Z := fold_right Z.add 0%Z l.

End Excel.

(** ** Reading of the specification, and sample data *)

Module Spec.
Import Py Datetime Report.

Definition parsed_by (s fmt : string) : option datetime :=
  match strptime s fmt with
  | Ok d => Some d
  | Raise _ => None
  end.

(** The timestamp normalizer in the specification's words: the first
    successfully parsed point-in-time of an ordered list of formats, or null
    when none matches. *)
Definition spec_first_parsed (s : string) (fmts : list string) : option datetime :=
  head (omap (parsed_by s) fmts).

(** A date and time of day written as zero-padded YYYY-MM-DD HH:MM:SS. *)
Definition digit_char (q : Z) : ascii := ascii_of_nat (48 + Z.to_nat q).

Definition two (n : Z) : string :=
  String (digit_char (n / 10)) (String (digit_char (n mod 10)) EmptyString).

Definition four (n : Z) : string :=
  String (digit_char (n / 1000))
    (String (digit_char (n / 100 mod 10))
       (String (digit_char (n / 10 mod 10))
          (String (digit_char (n mod 10)) EmptyString))).

Definition iso_text (t : datetime) : string :=
  (four (year t) +:+ "-" +:+ two (month t) +:+ "-" +:+ two (day t) +:+ " "
   +:+ two (hour t) +:+ ":" +:+ two (minute t) +:+ ":" +:+ two (second t))%string.

(** A character of a text. *)
Fixpoint occurs (c : ascii) (s : string) : Prop :=
  match s with
  | EmptyString => False
  | String c' s' => c = c' \/ occurs c s'
  end.

(** The tally of an instrument, all-zero when it has no entry. *)
Definition tally_at (m : gmap Z tally) (i : Z) : tally :=
  default zero_tally (m !! i).

(** What an order of a recognised status adds to a tally. *)
Definition credit (status : string) (q : Z) (t : tally) : tally :=
  if String.eqb status "FILLED" then add_executed q t
  else if String.eqb status "OPEN" then add_open q t
  else if String.eqb status "REJECTED" then add_rejected q t
  else t.

Definition recognised (status : string) : bool :=
  String.eqb status "FILLED" || String.eqb status "OPEN" || String.eqb status "REJECTED".

(** The [except] clause of the order loop. *)
Definition order_handler (client_id : string) (acc : gmap Z tally) (e : exn)
    : M (gmap Z tally) :=
  print (OrderError client_id e) ;;; ret acc.

Definition field_or (dflt : pyval) (k : string) (d : pydict) : pyval :=
  default dflt (lookup_item (KStr k) d).

(** First truthy candidate id of a position record, else the last candidate. *)
Definition position_id (d : pydict) : pyval :=
  por (field_or VNone "ExchangeInstrumentID" d)
    (por (field_or VNone "ExchangeNSEInstrumentID" d)
       (field_or VNone "ExchangeNSEInstrumentId" d)).

Definition holding_id (d : pydict) : pyval :=
  por (field_or VNone "ExchangeNSEInstrumentID" d)
    (field_or VNone "ExchangeNSEInstrumentId" d).

(** The entries the feed normalizers store: fields as received. *)
Definition stored_position (d : pydict) : position :=
  {| trading_symbol := field_or (VStr "N/A") "TradingSymbol" d;
     quantity := field_or (VInt 0) "Quantity" d |}.

Definition stored_holding (d : pydict) : holding :=
  {| holding_quantity := field_or (VInt 0) "HoldingQuantity" d;
     buy_avg_price := field_or (VInt 0) "BuyAvgPrice" d |}.

(** The holding quantity the row builder reads for an instrument. *)
Definition holding_qty_of (holdings : gmap Z holding) (i : Z) : pyval :=
  match holdings !! i with
  | Some h => holding_quantity h
  | None => VInt 0
  end.

(** The integer a quantity stands for in a subtraction: integers, and
    booleans as 0 and 1. *)
Definition int_value (v : pyval) : option Z :=
  match v with
  | VInt z => Some z
  | VBool b => Some (Z_of_bool b)
  | _ => None
  end.

(** The label used when the metadata gives no name. *)
Definition fallback_name (ex_id : pykey) : pyval := VStr ("ID:" +:+ str_key ex_id).

(** What a client's API handle answers to the three calls, if there is one. *)
Definition responses (client_apis : gmap string api) (client_id : string)
    : option (string + pyval * pyval * pyval) :=
  match client_apis !! client_id with
  | Some a => Some (fetch a client_id)
  | None => None
  end.


(** The cells of one column over a client's rows. *)
Definition cells_of (c : string) (rows : list SummaryRow) : list pyval :=
  map (fun r => Excel.cell c (Excel.row_dict r)) rows.

Definition numeric_columns : list string :=
  ["Target"; "Executed"; "Open"; "Rejected"; "Live Pos"; "Holding"; "Remaining"].

(** The instrument a position or holding record is stored under, if any. *)
Definition position_key (d : pydict) : option Z :=
  if truthy (position_id d) then
    match int (position_id d) with
    | Ok i => Some i
    | Raise _ => None
    end
  else None.

Definition holding_key (d : pydict) : option Z :=
  if truthy (holding_id d) then
    match int (holding_id d) with
    | Ok i => Some i
    | Raise _ => None
    end
  else None.

(** What one order does to the tallies: nothing, or a credit of a quantity
    to an instrument under a status. *)
Definition apply_effect (eff : option (Z * string * Z)) (acc : gmap Z tally)
    : gmap Z tally :=
  match eff with
  | None => acc
  | Some (i, status, q) => bump (credit status q) i acc
  end.

Definition is_dict (v : pyval) : bool :=
  match v with
  | VDict _ => true
  | _ => false
  end.

Definition is_str (v : pyval) : bool :=
  match v with
  | VStr _ => true
  | _ => false
  end.

(** A client whose API handle exists and answers all three calls. *)
Definition reachable (client_apis : gmap string api) (client_id : string) : bool :=
  match responses client_apis client_id with
  | Some (inr _) => true
  | _ => false
  end.

(** Answers of the expected shape: a record that is either not tagged
    'success' or carries the nested structure its reader walks, with records
    as entries (an order book may hold anything in its list). *)
Definition orders_shaped (v : pyval) : bool :=
  match v with
  | VDict d =>
      if eq_str (field_or VNone "type" d) "success" then
        match lookup_item (KStr "result") d with
        | None | Some (VList _) => true
        | _ => false
        end
      else true
  | _ => false
  end.

Definition positions_shaped (v : pyval) : bool :=
  match v with
  | VDict d =>
      if eq_str (field_or VNone "type" d) "success" then
        match lookup_item (KStr "result") d with
        | Some (VDict r) =>
            match lookup_item (KStr "positionList") r with
            | None => true
            | Some (VList l) => forallb is_dict l
            | _ => false
            end
        | _ => false
        end
      else true
  | _ => false
  end.

Definition holdings_shaped (v : pyval) : bool :=
  match v with
  | VDict d =>
      if eq_str (field_or VNone "type" d) "success" then
        match lookup_item (KStr "result") d with
        | Some (VDict r) =>
            match lookup_item (KStr "RMSHoldings") r with
            | Some (VDict rms) =>
                match lookup_item (KStr "Holdings") rms with
                | Some (VDict hs) => forallb (fun kv => is_dict (snd kv)) hs
                | _ => false
                end
            | _ => false
            end
        | _ => false
        end
      else true
  | _ => false
  end.

Definition params_shaped (v : pyval) : bool :=
  match v with
  | VDict p =>
      match lookup_item (KStr "total_quantity_to_sell") p with
      | None | Some (VDict _) => true
      | _ => false
      end
  | _ => false
  end.

(** A configured client whose answers, if its handle gives any, have the
    expected shape. *)
Definition client_shaped (client_apis : gmap string api) (entry : string * pyval) : bool :=
  params_shaped (snd entry)
  && match responses client_apis (fst entry) with
     | Some (inr (order_book_response, pos_response, holding_response)) =>
         orders_shaped order_book_response
         && positions_shaped pos_response
         && holdings_shaped holding_response
     | _ => true
     end.

(** Quantities that cannot be subtracted from: null, text, lists, records. *)
Definition not_a_number (v : pyval) : bool :=
  match v with
  | VNone | VStr _ | VList _ | VDict _ => true
  | VBool _ | VInt _ => false
  end.

Definition ok_row (o : outcome SummaryRow) : option SummaryRow :=
  match o with
  | Ok r => Some r
  | Raise _ => None
  end.

(** The line printed for a configured pair whose row raises. *)
Definition skip_line (client_id : string) (ex_id : pykey) (o : outcome SummaryRow)
    : option logmsg :=
  match o with
  | Ok _ => None
  | Raise e => Some (InstrumentError ex_id client_id e)
  end.

End Spec.

(** Sample data: one client, instrument 100 with target 50, one filled
    order of 20 after the cutoff, a settled holding of 80. *)
Module Samples.
Import Py Datetime Report.

Definition cutoff : datetime := mk_datetime 2024 2 13 9 15 0 0.

Definition filled_order : pydict :=
  [ (KStr "OrderDateTime", VStr "2024-02-13 10:30:00");
    (KStr "ExchangeInstrumentID", VInt 100);
    (KStr "OrderStatus", VStr "Filled");
    (KStr "OrderQuantity", VInt 20) ].

Definition order_at_cutoff : pydict :=
  [ (KStr "OrderDateTime", VStr "13-Feb-2024 09:15:00");
    (KStr "ExchangeInstrumentID", VStr "100");
    (KStr "OrderStatus", VStr "OPEN");
    (KStr "OrderQuantity", VStr "5") ].

Definition success (result : pyval) : pyval :=
  VDict [(KStr "type", VStr "success"); (KStr "result", result)].

Definition failure : pyval :=
  VDict [(KStr "type", VStr "error"); (KStr "description", VStr "session expired")].

Definition order_book : pyval := success (VList [VDict filled_order]).

Definition holding_of (inst_id qty : pyval) : pyval :=
  VDict [(KStr "ExchangeNSEInstrumentID", inst_id); (KStr "HoldingQuantity", qty)].

Definition holdings_feed (h : pyval) : pyval :=
  success (VDict [(KStr "RMSHoldings", VDict [(KStr "Holdings", VDict [(KStr "INE002A01018", h)])])]).

Definition targets (pairs : pydict) : pyval :=
  VDict [(KStr "total_quantity_to_sell", VDict pairs)].

Definition api_of (orders positions holdings : pyval) : api :=
  {| get_order_book := fun _ => Returns orders;
     get_position_daywise := fun _ => Returns positions;
     get_holding := fun _ => Returns holdings |}.

Definition good_api : api :=
  api_of order_book failure (holdings_feed (holding_of (VInt 100) (VInt 80))).

Definition metadata : pydict := [(KInt 100, VDict [(KStr "name", VStr "INFY")])].

(** A holdings feed that reports the quantity as text. *)
Definition text_quantity_api : api :=
  api_of order_book failure (holdings_feed (holding_of (VInt 100) (VStr "80"))).

(** A handle whose session has expired: the positions call raises. *)
Definition failing_api : api :=
  {| get_order_book := fun _ => Returns order_book;
     get_position_daywise := fun _ => Raises "connection reset";
     get_holding := fun _ => Returns failure |}.

(** A handle that answers like [good_api] for client C1 only. *)
Definition other_api : api :=
  {| get_order_book := fun c =>
       if String.eqb c "C1" then Returns order_book else Raises "unknown client";
     get_position_daywise := fun _ => Returns failure;
     get_holding := fun _ =>
       Returns (holdings_feed (holding_of (VInt 100) (VInt 80))) |}.

(** A holdings answer tagged as a success whose result lacks the nested
    RMSHoldings structure. *)
Definition malformed_holdings_api : api :=
  api_of order_book failure (success (VDict [])).

(** An exact column sum over integer cells. *)
Fixpoint exact_sum (cells : list pyval) : outcome pyval :=
  match cells with
  | [] => Ok (VInt 0)
  | VInt z :: rest =>
      match exact_sum rest with
      | Ok (VInt s) => Ok (VInt (z + s))
      | other => other
      end
  | _ :: _ => Raise TypeError
  end.

(** A holdings feed that reports a null quantity. *)
Definition null_quantity_api : api :=
  api_of order_book failure (holdings_feed (holding_of (VInt 100) VNone)).

Definition config : list (string * pyval) := [("C1", targets [(KInt 100, VInt 50)])].

Definition expected_row : SummaryRow :=
  {| Instrument := VStr "ID:100"; Target := VInt 50;
     Executed := 20; Open := 0; Rejected := 0;
     Live_Pos := VInt 0; Holding := VInt 80; Remaining := 60 |}.

End Samples.

(** ** Properties *)

Module Facts.
Import Py Datetime Report Excel Spec Samples.

Lemma bind_ret {A B} (a : A) (k : A -> M B) : bind (ret a) k = k a.
Proof. unfold bind, ret. destruct (k a) as [l r]. reflexivity. Qed.

Lemma bind_lift_ok {A B} (a : A) (k : A -> M B) : bind (lift (Ok a)) k = k a.
Proof. apply bind_ret. Qed.

Lemma bind_lift_raise {A B} (e : exn) (k : A -> M B) :
  bind (lift (Raise e)) k = ([], Raise e).
Proof. reflexivity. Qed.

Lemma bind_print {B} (m : logmsg) (k : unit -> M B) :
  bind (print m) k = (m :: fst (k tt), snd (k tt)).
Proof. unfold bind, print. destruct (k tt) as [l r]. reflexivity. Qed.

Lemma bind_assoc {A B C} (c : M A) (f : A -> M B) (g : B -> M C) :
  bind (bind c f) g = bind c (fun a => bind (f a) g).
Proof.
  destruct c as [l [a | e]]; simpl; [| reflexivity].
  destruct (f a) as [l1 [b | e1]]; simpl; [| reflexivity].
  destruct (g b) as [l2 r]. by rewrite app_assoc.
Qed.

Lemma get_default_dict (d : pydict) (k : string) (v : pyval) :
  get_default (VDict d) k v = Ok (default v (lookup_item (KStr k) d)).
Proof. reflexivity. Qed.

Lemma for_each_app {A B} (f : A -> B -> M A) (a : A) (l1 l2 : list B) :
  for_each f a (l1 ++ l2) = bind (for_each f a l1) (fun a' => for_each f a' l2).
Proof.
  revert a. induction l1 as [| x l1 IH]; intros a.
  - exact (eq_sym (bind_ret a (fun a' => for_each f a' l2))).
  - cbn [for_each app]. rewrite bind_assoc.
    destruct (f a x) as [l [a' | e]]; [| reflexivity].
    unfold bind at 1 3. by rewrite IH.
Qed.

(** *** Timestamp normalizer *)

Lemma strptime_raises_ValueError (s fmt : string) (e : exn) :
  strptime s fmt = Raise e -> e = ValueError.
Proof.
  unfold strptime.
  destruct (re_match (pattern fmt) s) as [[caps rest] |]; [| congruence].
  destruct rest; [| congruence].
  destruct (valid (of_captures caps)); congruence.
Qed.

Lemma try_formats_first_parsed (s : string) (fmts : list string) :
  try_formats (VStr s) fmts = Ok (spec_first_parsed s fmts).
Proof.
  induction fmts as [| fmt fmts IH]; [reflexivity |].
  unfold spec_first_parsed. cbn [try_formats py_strptime omap list_omap].
  unfold parsed_by at 1.
  destruct (strptime s fmt) as [d | e] eqn:E; [reflexivity |].
  apply strptime_raises_ValueError in E. subst e. exact IH.
Qed.

Example parse_iso_seconds :
  parse_order_time (VStr "2024-02-13 10:30:00")
  = ([], Ok (Some (mk_datetime 2024 2 13 10 30 0 0))).
Proof. vm_compute. reflexivity. Qed.

Example parse_abbreviated_month :
  parse_order_time (VStr "13-Feb-2024 10:30:00")
  = ([], Ok (Some (mk_datetime 2024 2 13 10 30 0 0))).
Proof. vm_compute. reflexivity. Qed.

Example parse_ambiguous_day_month :
  parse_order_time (VStr "03-04-2024 10:30:00")
  = ([], Ok (Some (mk_datetime 2024 4 3 10 30 0 0))).
Proof. vm_compute. reflexivity. Qed.

Example parse_garbage :
  parse_order_time (VStr "yesterday") = ([WarnTimestamp (VStr "yesterday")], Ok None).
Proof. vm_compute. reflexivity. Qed.

(** C5. For every timestamp string the normalizer tries the five formats
    (date with microseconds, date without, day-month-year, month/day/year,
    day-abbreviated month-year) in that order and returns the point-in-time
    of the first one that parses; when none parses it returns null and prints
    exactly one warning. *)
Theorem parse_order_time_first_format (s : string) :
  formats = [ "%Y-%m-%d %H:%M:%S.%f"; "%Y-%m-%d %H:%M:%S"; "%d-%m-%Y %H:%M:%S";
              "%m/%d/%Y %H:%M:%S"; "%d-%b-%Y %H:%M:%S" ]
  /\ parse_order_time (VStr s) =
       match spec_first_parsed s formats with
       | Some d => ([], Ok (Some d))
       | None => ([WarnTimestamp (VStr s)], Ok None)
       end.
Proof.
  split; [reflexivity |].
  unfold parse_order_time. rewrite try_formats_first_parsed.
  destruct (spec_first_parsed s formats); reflexivity.
Qed.


(** *** Cutoff filter *)

Lemma lex_ltb_irrefl (a : list Z) : lex_ltb a a = false.
Proof.
  induction a as [| x a IH]; [reflexivity |]. simpl.
  rewrite Z.ltb_irrefl, Z.eqb_refl, IH. reflexivity.
Qed.

Lemma ltb_irrefl (t : datetime) : Datetime.ltb t t = false.
Proof. apply lex_ltb_irrefl. Qed.

Lemma lex_ltb_asym (a b : list Z) : lex_ltb a b = true -> lex_ltb b a = false.
Proof.
  revert b. induction a as [| x a IH]; intros [| y b]; simpl; try congruence.
  intros H. apply orb_true_iff in H as [H | H].
  - apply Z.ltb_lt in H.
    replace (y <? x)%Z with false by (symmetry; apply Z.ltb_ge; lia).
    replace (y =? x)%Z with false by (symmetry; apply Z.eqb_neq; lia).
    reflexivity.
  - apply andb_true_iff in H as [Hxy H]. apply Z.eqb_eq in Hxy. subst y.
    rewrite Z.ltb_irrefl, Z.eqb_refl. simpl. by apply IH.
Qed.

Lemma lex_ltb_trans (a b c : list Z) :
  lex_ltb a b = true -> lex_ltb b c = true -> lex_ltb a c = true.
Proof.
  revert b c. induction a as [| x a IH]; intros [| y b] [| z c]; simpl; try congruence.
  intros H1 H2.
  apply orb_true_iff in H1 as [H1 | H1]; apply orb_true_iff in H2 as [H2 | H2];
    apply orb_true_iff.
  - left. apply Z.ltb_lt in H1, H2. apply Z.ltb_lt. lia.
  - apply andb_true_iff in H2 as [E _]. apply Z.eqb_eq in E. subst. by left.
  - apply andb_true_iff in H1 as [E _]. apply Z.eqb_eq in E. subst. by left.
  - apply andb_true_iff in H1 as [E1 H1]. apply andb_true_iff in H2 as [E2 H2].
    right. apply Z.eqb_eq in E1, E2. subst. rewrite Z.eqb_refl. simpl. eauto.
Qed.

Lemma tally_at_bump (f : tally -> tally) (i : Z) (m : gmap Z tally) :
  tally_at (bump f i m) i = f (tally_at m i).
Proof. unfold tally_at, bump. by rewrite lookup_insert_eq. Qed.

Lemma tally_at_bump_ne (f : tally -> tally) (i j : Z) (m : gmap Z tally) :
  i <> j -> tally_at (bump f i m) j = tally_at m j.
Proof. intros H. unfold tally_at, bump. by rewrite lookup_insert_ne. Qed.

Lemma order_step_parsed client cutoff acc d t :
  parse_order_time (field_or (VStr "") "OrderDateTime" d) = ([], Ok (Some t)) ->
  order_step client cutoff acc (VDict d) =
    if Datetime.ltb t cutoff then ([], Ok acc)
    else try_except (tally_order acc (VDict d)) (order_handler client acc).
Proof.
  intros Hp. unfold order_step, order_body.
  rewrite get_default_dict, bind_lift_ok. fold (field_or (VStr "") "OrderDateTime" d).
  rewrite Hp. change ([], Ok (Some t)) with (@ret (option datetime) (Some t)).
  rewrite bind_ret. destruct (Datetime.ltb t cutoff); reflexivity.
Qed.

Lemma tally_order_recognised acc d i q status :
  int (field_or (VInt 0) "ExchangeInstrumentID" d) = Ok i -> i <> 0%Z ->
  str_upper (field_or (VStr "") "OrderStatus" d) = Ok status ->
  status ∈ ["FILLED"; "OPEN"; "REJECTED"] ->
  int (field_or (VInt 0) "OrderQuantity" d) = Ok q ->
  tally_order acc (VDict d) = ([], Ok (bump (credit status q) i acc)).
Proof.
  intros Hi Hne Hs Hin Hq. unfold tally_order.
  rewrite !get_default_dict. fold (field_or (VInt 0) "ExchangeInstrumentID" d).
  fold (field_or (VStr "") "OrderStatus" d). fold (field_or (VInt 0) "OrderQuantity" d).
  rewrite bind_lift_ok, Hi, bind_lift_ok.
  apply Z.eqb_neq in Hne. rewrite Hne.
  rewrite bind_lift_ok, Hs, bind_lift_ok, bind_lift_ok, Hq, bind_lift_ok.
  repeat (apply elem_of_cons in Hin as [-> | Hin]; [reflexivity |]).
  by apply elem_of_nil in Hin.
Qed.

(** C4. An order with a parsable timestamp is counted exactly when its
    timestamp is at or after the cutoff: strictly before, it leaves every
    sum untouched; at the cutoff or later it is tallied as if there were no
    cutoff, so that an order of a recognised status adds its quantity to its
    instrument; a timestamp equal to the cutoff is included. *)
Theorem order_counted_iff_not_before_cutoff client cutoff acc d t :
  parse_order_time (field_or (VStr "") "OrderDateTime" d) = ([], Ok (Some t)) ->
  (Datetime.geb t cutoff = false ->
     order_step client cutoff acc (VDict d) = ([], Ok acc))
  /\ (Datetime.geb t cutoff = true ->
     order_step client cutoff acc (VDict d)
     = try_except (tally_order acc (VDict d)) (order_handler client acc))
  /\ (t = cutoff -> Datetime.geb t cutoff = true)
  /\ (forall i q status,
        int (field_or (VInt 0) "ExchangeInstrumentID" d) = Ok i -> i <> 0%Z ->
        str_upper (field_or (VStr "") "OrderStatus" d) = Ok status ->
        status ∈ ["FILLED"; "OPEN"; "REJECTED"] ->
        int (field_or (VInt 0) "OrderQuantity" d) = Ok q ->
        exists acc',
          order_step client cutoff acc (VDict d) = ([], Ok acc')
          /\ (forall j, j <> i -> tally_at acc' j = tally_at acc j)
          /\ tally_at acc' i =
               if Datetime.geb t cutoff then credit status q (tally_at acc i)
               else tally_at acc i).
Proof.
  intros Hp. pose proof (order_step_parsed client cutoff acc d t Hp) as Hstep.
  unfold Datetime.geb. repeat split.
  - intros H. apply negb_false_iff in H. by rewrite Hstep, H.
  - intros H. apply negb_true_iff in H. by rewrite Hstep, H.
  - intros ->. by rewrite ltb_irrefl.
  - intros i q status Hi Hne Hs Hin Hq. rewrite Hstep.
    destruct (Datetime.ltb t cutoff); simpl.
    + exists acc. done.
    + rewrite (tally_order_recognised acc d i q status Hi Hne Hs Hin Hq).
      exists (bump (credit status q) i acc). split; [reflexivity |]. split.
      * intros j Hj. by apply tally_at_bump_ne.
      * apply tally_at_bump.
Qed.

Lemma order_counted_iff_not_before_cutoff_witness :
  exists acc',
    order_step "C1" cutoff ∅ (VDict order_at_cutoff) = ([], Ok acc')
    /\ tally_at acc' 100 = {| executed := 0; open := 5; rejected := 0 |}.
Proof.
  destruct (order_counted_iff_not_before_cutoff "C1" cutoff ∅ order_at_cutoff cutoff)
    as (_ & _ & Hat & H); [vm_compute; reflexivity |].
  destruct (H 100%Z 5%Z "OPEN") as (acc' & Hstep & _ & Hi);
    [vm_compute; reflexivity | lia | vm_compute; reflexivity
    | right; left | vm_compute; reflexivity |].
  exists acc'. split; [exact Hstep |].
  rewrite Hi, (Hat eq_refl). vm_compute. reflexivity.
Defined.


(** *** Feed normalizers *)

Lemma position_inst_id_dict (d : pydict) :
  position_inst_id (VDict d) = Ok (position_id d).
Proof.
  unfold position_inst_id, position_id, por, get_none.
  rewrite !get_default_dict. unfold field_or. simpl.
  destruct (truthy (default VNone (lookup_item (KStr "ExchangeInstrumentID") d)));
    [reflexivity |].
  destruct (truthy (default VNone (lookup_item (KStr "ExchangeNSEInstrumentID") d)));
    reflexivity.
Qed.

Lemma holding_inst_id_dict (d : pydict) :
  holding_inst_id (VDict d) = Ok (holding_id d).
Proof.
  unfold holding_inst_id, holding_id, por, get_none.
  rewrite !get_default_dict. unfold field_or. simpl.
  destruct (truthy (default VNone (lookup_item (KStr "ExchangeNSEInstrumentID") d)));
    reflexivity.
Qed.

Lemma position_step_dict client acc (d : pydict) :
  position_step client acc (VDict d) =
    if truthy (position_id d) then
      match int (position_id d) with
      | Ok i => ([], Ok (<[i := stored_position d]> acc))
      | Raise e => ([PositionError client e], Ok acc)
      end
    else ([], Ok acc).
Proof.
  unfold position_step. rewrite position_inst_id_dict, bind_lift_ok.
  destruct (truthy (position_id d)); [| reflexivity].
  destruct (int (position_id d)) as [i | e]; reflexivity.
Qed.

Lemma holding_step_dict client acc (isin : pykey) (d : pydict) :
  holding_step client acc (isin, VDict d) =
    if truthy (holding_id d) then
      match int (holding_id d) with
      | Ok i => ([], Ok (<[i := stored_holding d]> acc))
      | Raise e => ([HoldingError client e], Ok acc)
      end
    else ([], Ok acc).
Proof.
  unfold holding_step. cbn [snd]. rewrite holding_inst_id_dict, bind_lift_ok.
  destruct (truthy (holding_id d)); [| reflexivity].
  destruct (int (holding_id d)) as [i | e]; reflexivity.
Qed.

Lemma for_each_total {A B} (f : A -> B -> M A) (l : list B) :
  (forall a x, x ∈ l -> exists log a', f a x = (log, Ok a')) ->
  forall a, exists log a', for_each f a l = (log, Ok a').
Proof.
  induction l as [| x l IH]; intros Hf a.
  - by exists [], a.
  - destruct (Hf a x) as (l1 & a1 & E1); [by left |].
    destruct (IH (fun a y Hy => Hf a y (list_elem_of_further _ _ _ Hy)) a1)
      as (l2 & a2 & E2).
    exists (l1 ++ l2), a2. cbn [for_each]. rewrite E1. unfold bind. by rewrite E2.
Qed.

Lemma position_step_returns client acc (d : pydict) :
  exists log acc', position_step client acc (VDict d) = (log, Ok acc').
Proof.
  rewrite position_step_dict.
  destruct (truthy (position_id d)); [| by eauto].
  destruct (int (position_id d)); eauto.
Qed.

Lemma holding_step_returns client acc (isin : pykey) (d : pydict) :
  exists log acc', holding_step client acc (isin, VDict d) = (log, Ok acc').
Proof.
  rewrite holding_step_dict.
  destruct (truthy (holding_id d)); [| by eauto].
  destruct (int (holding_id d)); eauto.
Qed.

(** C6, as the code has it.  For every record of the positions and holdings
    feeds the numeric fields (Quantity, HoldingQuantity, BuyAvgPrice) default
    to zero when absent and are otherwise stored as received, without any
    coercion.  Only the instrument id is coerced: a record whose id does not
    coerce to an integer is logged and skipped, leaving the per-instrument
    map as it was, and the rest of the feed is still processed. *)
Theorem feed_records_stored_uncoerced client :
  (forall acc d,
     position_step client acc (VDict d) =
       if truthy (position_id d) then
         match int (position_id d) with
         | Ok i =>
             ([], Ok (<[i := {| trading_symbol := field_or (VStr "N/A") "TradingSymbol" d;
                                quantity := field_or (VInt 0) "Quantity" d |}]> acc))
         | Raise e => ([PositionError client e], Ok acc)
         end
       else ([], Ok acc))
  /\ (forall acc isin d,
     holding_step client acc (isin, VDict d) =
       if truthy (holding_id d) then
         match int (holding_id d) with
         | Ok i =>
             ([], Ok (<[i := {| holding_quantity := field_or (VInt 0) "HoldingQuantity" d;
                                buy_avg_price := field_or (VInt 0) "BuyAvgPrice" d |}]> acc))
         | Raise e => ([HoldingError client e], Ok acc)
         end
       else ([], Ok acc))
  /\ (forall d k, lookup_item (KStr k) d = None -> field_or (VInt 0) k d = VInt 0)
  /\ (forall d k v, lookup_item (KStr k) d = Some v -> field_or (VInt 0) k d = v)
  /\ (forall acc ds, exists log m,
        for_each (position_step client) acc (map VDict ds) = (log, Ok m))
  /\ (forall acc (hs : list (pykey * pydict)), exists log m,
        for_each (holding_step client) acc (map (fun kv => (fst kv, VDict (snd kv))) hs)
        = (log, Ok m)).
Proof.
  split; [intros; apply position_step_dict |].
  split; [intros; apply holding_step_dict |].
  split; [intros d k H; unfold field_or; by rewrite H |].
  split; [intros d k v H; unfold field_or; by rewrite H |].
  split.
  - intros acc ds. apply for_each_total. intros a x Hx.
    apply list_elem_of_fmap in Hx as (d & -> & _). apply position_step_returns.
  - intros acc hs. apply for_each_total. intros a x Hx.
    apply list_elem_of_fmap in Hx as (kv & -> & _). apply holding_step_returns.
Qed.

Lemma feed_records_stored_uncoerced_witness :
  position_step "C1" ∅ (VDict [(KStr "ExchangeNSEInstrumentID", VStr "x7")])
  = ([PositionError "C1" ValueError], Ok ∅)
  /\ field_or (VInt 0) "Quantity" [(KStr "TradingSymbol", VStr "INFY")] = VInt 0
  /\ field_or (VInt 0) "Quantity" [(KStr "Quantity", VStr "12")] = VStr "12".
Proof.
  destruct (feed_records_stored_uncoerced "C1") as (Hp & _ & Habsent & Hpresent & _).
  split; [rewrite Hp; vm_compute; reflexivity |].
  split.
  - apply Habsent. reflexivity.
  - apply Hpresent. reflexivity.
Defined.

(** C6 as stated fails: a position or holding whose quantity is present and
    not coercible to a number is neither logged nor skipped; it is stored
    under its instrument with the quantity as received. *)
Lemma non_numeric_quantity_is_stored :
  int (VStr "abc") = Raise ValueError
  /\ process_positions "C1"
       (success (VDict [(KStr "positionList",
          VList [VDict [(KStr "ExchangeInstrumentID", VInt 100);
                        (KStr "Quantity", VStr "abc")]])]))
     = ([], Ok {[ 100%Z := {| trading_symbol := VStr "N/A"; quantity := VStr "abc" |} ]})
  /\ process_holdings "C1" (holdings_feed (holding_of (VInt 100) (VStr "abc")))
     = ([], Ok {[ 100%Z := {| holding_quantity := VStr "abc"; buy_avg_price := VInt 0 |} ]}).
Proof. repeat split; vm_compute; reflexivity. Qed.

(** *** Records without an instrument id *)

Lemma try_except_ok {A} (l : list logmsg) (a : A) (h : exn -> M A) :
  try_except (l, Ok a) h = (l, Ok a).
Proof. reflexivity. Qed.

Lemma tally_order_zero_id acc d :
  int (field_or (VInt 0) "ExchangeInstrumentID" d) = Ok 0%Z ->
  tally_order acc (VDict d) = ([], Ok acc).
Proof.
  intros H. unfold tally_order. rewrite get_default_dict, bind_lift_ok.
  fold (field_or (VInt 0) "ExchangeInstrumentID" d). rewrite H, bind_lift_ok.
  reflexivity.
Qed.

Lemma parse_order_time_log ts log r :
  parse_order_time ts = (log, r) ->
  (exists e, log = [] /\ r = Raise e)
  \/ (log = [WarnTimestamp ts] /\ r = Ok None)
  \/ (exists t, log = [] /\ r = Ok (Some t)).
Proof.
  unfold parse_order_time.
  destruct (try_formats ts formats) as [[t |] | e]; intros [= <- <-]; eauto 6.
Qed.

Lemma order_step_zero_id client cutoff acc d :
  int (field_or (VInt 0) "ExchangeInstrumentID" d) = Ok 0%Z ->
  snd (order_step client cutoff acc (VDict d)) = Ok acc.
Proof.
  intros H. unfold order_step, order_body.
  rewrite get_default_dict, bind_lift_ok.
  destruct (parse_order_time (default (VStr "") (lookup_item (KStr "OrderDateTime") d)))
    as [log r] eqn:E.
  apply parse_order_time_log in E as [(e & -> & ->) | [(-> & ->) | (t & -> & ->)]].
  - reflexivity.
  - reflexivity.
  - change ([], Ok (Some t)) with (@ret (option datetime) (Some t)). rewrite bind_ret.
    destruct (Datetime.ltb t cutoff); [reflexivity |].
    by rewrite tally_order_zero_id.
Qed.

(** C10. Records without an instrument id are dropped without a message of
    their own.  An order whose ExchangeInstrumentID is absent or coerces to
    the integer 0 adds to no instrument's sums and, once its timestamp has
    parsed, prints nothing; a position or a holding whose candidate id fields
    are all falsy (absent, empty or 0) leaves the per-instrument map as it
    was and prints nothing. *)
Theorem records_without_id_dropped client :
  (forall cutoff acc d,
     lookup_item (KStr "ExchangeInstrumentID") d = None
     \/ (exists v, lookup_item (KStr "ExchangeInstrumentID") d = Some v /\ int v = Ok 0%Z) ->
     snd (order_step client cutoff acc (VDict d)) = Ok acc
     /\ forall t,
          parse_order_time (field_or (VStr "") "OrderDateTime" d) = ([], Ok (Some t)) ->
          order_step client cutoff acc (VDict d) = ([], Ok acc))
  /\ (forall acc d,
     truthy (field_or VNone "ExchangeInstrumentID" d) = false ->
     truthy (field_or VNone "ExchangeNSEInstrumentID" d) = false ->
     truthy (field_or VNone "ExchangeNSEInstrumentId" d) = false ->
     position_step client acc (VDict d) = ([], Ok acc))
  /\ (forall acc isin d,
     truthy (field_or VNone "ExchangeNSEInstrumentID" d) = false ->
     truthy (field_or VNone "ExchangeNSEInstrumentId" d) = false ->
     holding_step client acc (isin, VDict d) = ([], Ok acc)).
Proof.
  split; [| split].
  - intros co acc d H.
    assert (Hz : int (field_or (VInt 0) "ExchangeInstrumentID" d) = Ok 0%Z).
    { unfold field_or. destruct H as [-> | (v & -> & Hv)]; [reflexivity | exact Hv]. }
    split; [by apply order_step_zero_id |].
    intros t Ht. rewrite (order_step_parsed _ _ _ _ _ Ht).
    destruct (Datetime.ltb t co); [reflexivity |].
    by rewrite tally_order_zero_id.
  - intros acc d Ha Hb Hc. rewrite position_step_dict.
    unfold position_id, por. by rewrite Ha, Hb, Hc.
  - intros acc isin d Ha Hb. rewrite holding_step_dict.
    unfold holding_id, por. by rewrite Ha, Hb.
Qed.

Lemma records_without_id_dropped_witness :
  order_step "C1" cutoff ∅
    (VDict [(KStr "OrderDateTime", VStr "2024-02-13 10:30:00");
            (KStr "ExchangeInstrumentID", VStr "0");
            (KStr "OrderStatus", VStr "FILLED");
            (KStr "OrderQuantity", VInt 7)])
  = ([], Ok ∅)
  /\ position_step "C1" ∅
       (VDict [(KStr "ExchangeInstrumentID", VInt 0);
               (KStr "ExchangeNSEInstrumentID", VStr "");
               (KStr "Quantity", VInt 3)])
     = ([], Ok ∅)
  /\ holding_step "C1" ∅ (KStr "INE002A01018", VDict [(KStr "HoldingQuantity", VInt 3)])
     = ([], Ok ∅).
Proof.
  destruct (records_without_id_dropped "C1") as (Ho & Hp & Hh).
  split; [| split].
  - eapply Ho.
    + right. exists (VStr "0"). split; reflexivity.
    + vm_compute. reflexivity.
  - apply Hp; reflexivity.
  - apply Hh; reflexivity.
Defined.


(** *** Row builder *)

Lemma build_row_numeric sd lp hs io ex_id target i name h :
  int_key ex_id = Ok i ->
  get_default (default (VDict []) (lookup_item (KInt i) sd)) "name" (fallback_name ex_id)
  = Ok name ->
  int_value (holding_qty_of hs i) = Some h ->
  build_row sd lp hs io ex_id target =
    Ok {| Instrument := name;
          Target := target;
          Executed := executed (tally_at io i);
          Open := open (tally_at io i);
          Rejected := rejected (tally_at io i);
          Live_Pos := match lp !! i with Some p => quantity p | None => VInt 0 end;
          Holding := holding_qty_of hs i;
          Remaining := h - executed (tally_at io i) |}.
Proof.
  intros Hi Hn Hh. unfold build_row. rewrite Hi. cbn [obind].
  fold (fallback_name ex_id). rewrite Hn. cbn [obind].
  fold (holding_qty_of hs i).
  destruct (holding_qty_of hs i) as [| b | z | | |]; try discriminate;
    injection Hh as <-; reflexivity.
Qed.

(** C3, as the code has it.  For a configured pair whose instrument id
    coerces to an integer, whose metadata entry, if any, is a record and whose
    holding quantity, if the feed has one, is an integer or a boolean, the row
    builder produces a row: the display name falls back to "ID:<id>", with the
    id as the configuration writes it, when the instrument is not in the
    metadata; Executed, Open and Rejected are zero without order aggregates;
    Live Pos and Holding are zero when absent from their feeds; and Remaining
    is Holding minus Executed.  For the target {100: 50}, one FILLED order of
    20 for instrument 100 after the cutoff and a holding of 80, the row is
    Target 50, Executed 20, Open 0, Rejected 0, Remaining 60. *)
Theorem row_builder_defaults_and_remaining :
  (forall sd lp hs io ex_id target i h,
     int_key ex_id = Ok i ->
     (forall v, lookup_item (KInt i) sd = Some v -> exists record, v = VDict record) ->
     int_value (holding_qty_of hs i) = Some h ->
     exists r,
       build_row sd lp hs io ex_id target = Ok r
       /\ Target r = target
       /\ (lookup_item (KInt i) sd = None ->
           Instrument r = VStr ("ID:" +:+ str_key ex_id))
       /\ (forall record, lookup_item (KInt i) sd = Some (VDict record) ->
           Instrument r = field_or (VStr ("ID:" +:+ str_key ex_id)) "name" record)
       /\ (io !! i = None -> Executed r = 0%Z /\ Open r = 0%Z /\ Rejected r = 0%Z)
       /\ (forall t, io !! i = Some t ->
           Executed r = executed t /\ Open r = open t /\ Rejected r = rejected t)
       /\ (lp !! i = None -> Live_Pos r = VInt 0)
       /\ (forall p, lp !! i = Some p -> Live_Pos r = quantity p)
       /\ (hs !! i = None -> Holding r = VInt 0)
       /\ (forall hd, hs !! i = Some hd -> Holding r = holding_quantity hd)
       /\ int_value (Holding r) = Some h
       /\ Remaining r = (h - Executed r)%Z)
  /\ generate_summary_data_sell [("C1", targets [(KInt 100, VInt 50)])] cutoff []
       {[ "C1" := good_api ]}
     = ([], Ok [("C1", [ {| Instrument := VStr "ID:100"; Target := VInt 50;
                            Executed := 20; Open := 0; Rejected := 0;
                            Live_Pos := VInt 0; Holding := VInt 80;
                            Remaining := 60 |} ])]).
Proof.
  split; [| vm_compute; reflexivity].
  intros sd lp hs io ex_id target i h Hi Hmeta Hh.
  assert (Hname : exists name,
    get_default (default (VDict []) (lookup_item (KInt i) sd)) "name" (fallback_name ex_id)
    = Ok name
    /\ (lookup_item (KInt i) sd = None -> name = fallback_name ex_id)
    /\ (forall record, lookup_item (KInt i) sd = Some (VDict record) ->
        name = field_or (fallback_name ex_id) "name" record)).
  { destruct (lookup_item (KInt i) sd) as [v |] eqn:E.
    - destruct (Hmeta v eq_refl) as [record ->].
      exists (field_or (fallback_name ex_id) "name" record).
      split; [reflexivity |]. split; [congruence |]. by intros ? [= <-].
    - exists (fallback_name ex_id). split; [reflexivity |]. split; [done | congruence]. }
  destruct Hname as (name & Hn & Hnone & Hsome).
  eexists. split; [exact (build_row_numeric sd lp hs io ex_id target i name h Hi Hn Hh) |].
  cbn [Instrument Target Executed Open Rejected Live_Pos Holding Remaining].
  unfold tally_at, holding_qty_of in *.
  split; [reflexivity |].
  split; [exact Hnone |].
  split; [exact Hsome |].
  split; [by intros -> |].
  split; [by intros t -> |].
  split; [by intros -> |].
  split; [by intros p -> |].
  split; [by intros -> |].
  split; [by intros hd -> |].
  split; [exact Hh | reflexivity].
Qed.


Lemma row_builder_defaults_and_remaining_witness :
  exists r,
    build_row metadata ∅ {[ 100%Z := {| holding_quantity := VInt 80; buy_avg_price := VInt 0 |} ]}
      ∅ (KStr "100") (VInt 50) = Ok r
    /\ Instrument r = VStr "INFY" /\ Executed r = 0%Z /\ Remaining r = 80%Z.
Proof.
  destruct row_builder_defaults_and_remaining as [H _].
  destruct (H metadata ∅
              {[ 100%Z := {| holding_quantity := VInt 80; buy_avg_price := VInt 0 |} ]}
              ∅ (KStr "100") (VInt 50) 100%Z 80%Z)
    as (r & Hr & _ & _ & Hname & Hzero & _ & _ & _ & _ & _ & _ & Hrem).
  - vm_compute. reflexivity.
  - intros v Hv. vm_compute in Hv. injection Hv as <-. eexists. reflexivity.
  - vm_compute. reflexivity.
  - exists r. split; [exact Hr |].
    split; [exact (Hname [(KStr "name", VStr "INFY")] eq_refl) |].
    destruct (Hzero eq_refl) as (He & _). split; [exact He |].
    rewrite Hrem, He. reflexivity.
Defined.

(** C3 as stated fails: the pair (100, 50) is configured, the holdings feed
    reports a null quantity for instrument 100, and the row builder raises
    TypeError for the pair instead of producing a row; the same happens when
    the metadata entry of the instrument is text instead of a record. *)
Lemma pair_with_null_holding_gets_no_row :
  build_row metadata ∅
    {[ 100%Z := {| holding_quantity := VNone; buy_avg_price := VInt 0 |} ]} ∅
    (KInt 100) (VInt 50) = Raise TypeError
  /\ build_row [(KInt 100, VStr "INFY")] ∅ ∅ ∅ (KInt 100) (VInt 50) = Raise AttributeError
  /\ generate_summary_data_sell [("C1", targets [(KInt 100, VInt 50)])] cutoff metadata
       {[ "C1" := null_quantity_api ]}
     = ([InstrumentError (KInt 100) "C1" TypeError], Ok [("C1", [])]).
Proof. repeat split; vm_compute; reflexivity. Qed.

(** *** One row per configured pair *)

Lemma bind_ok_inv {A B} (c : M A) (k : A -> M B) log b :
  bind c k = (log, Ok b) ->
  exists l1 a l2, c = (l1, Ok a) /\ k a = (l2, Ok b) /\ log = l1 ++ l2.
Proof.
  destruct c as [l1 [a | e]]; simpl; [| congruence].
  destruct (k a) as [l2 r] eqn:E. intros [= <- ->]. by exists l1, a, l2.
Qed.

Lemma lift_ok_inv {A} (o : outcome A) log a : lift o = (log, Ok a) -> o = Ok a.
Proof. unfold lift. congruence. Qed.

Lemma row_step_spec client sd lp hs io acc (p : pykey * pyval) :
  exists log,
    row_step client sd lp hs io acc p
    = (log, Ok (acc ++ option_list (ok_row (build_row sd lp hs io (fst p) (snd p))))).
Proof.
  destruct p as [ex_id target]. unfold row_step. cbn [fst snd].
  destruct (build_row sd lp hs io ex_id target) as [r | e].
  - exists []. reflexivity.
  - exists [InstrumentError ex_id client e]. cbn. by rewrite app_nil_r.
Qed.

Lemma rows_of_pairs client sd lp hs io (pairs : list (pykey * pyval)) :
  forall acc, exists log,
    for_each (row_step client sd lp hs io) acc pairs
    = (log, Ok (acc ++ omap (fun p => ok_row (build_row sd lp hs io (fst p) (snd p))) pairs)).
Proof.
  induction pairs as [| p pairs IH]; intros acc.
  - exists []. cbn. by rewrite app_nil_r.
  - destruct (row_step_spec client sd lp hs io acc p) as [l1 E1].
    destruct (IH (acc ++ option_list (ok_row (build_row sd lp hs io (fst p) (snd p)))))
      as [l2 E2].
    exists (l1 ++ l2). cbn [for_each]. rewrite E1. unfold bind. rewrite E2.
    f_equal. f_equal. rewrite <- app_assoc. f_equal. cbn [omap list_omap].
    destruct (ok_row (build_row sd lp hs io (fst p) (snd p))); reflexivity.
Qed.

Lemma build_row_key sd lp hs io ex_id target r :
  build_row sd lp hs io ex_id target = Ok r ->
  exists i, int_key ex_id = Ok i /\ Target r = target.
Proof.
  unfold build_row. destruct (int_key ex_id) as [i | e]; [| discriminate]. cbn [obind].
  destruct (get_default _ _ _) as [name | e]; [| discriminate]. cbn [obind].
  destruct (sub_int _ _) as [rem | e]; [| discriminate]. cbn [obind].
  intros [= <-]. by exists i.
Qed.

Lemma rows_and_lines_of_pairs client sd lp hs io (pairs : list (pykey * pyval)) :
  forall acc,
    for_each (row_step client sd lp hs io) acc pairs
    = (omap (fun p => skip_line client (fst p) (build_row sd lp hs io (fst p) (snd p))) pairs,
       Ok (acc ++ omap (fun p => ok_row (build_row sd lp hs io (fst p) (snd p))) pairs)).
Proof.
  induction pairs as [| [ex_id target] pairs IH]; intros acc.
  - cbn. by rewrite app_nil_r.
  - cbn [for_each omap list_omap fst snd]. unfold row_step at 1.
    destruct (build_row sd lp hs io ex_id target) as [r | e].
    + rewrite bind_lift_ok. change (try_except (ret (acc ++ [r])) _) with (ret (acc ++ [r])).
      rewrite bind_ret, IH. cbn [ok_row skip_line]. by rewrite <- app_assoc.
    + change (try_except _ _) with (([InstrumentError ex_id client e], Ok acc) : M _).
      unfold bind at 1. rewrite IH. reflexivity.
Qed.

Lemma rows_plus_lines (client : string) (f : pykey * pyval -> outcome SummaryRow)
    (pairs : list (pykey * pyval)) :
  (length (omap (fun p => ok_row (f p)) pairs)
   + length (omap (fun p => skip_line client (fst p) (f p)) pairs))%nat
  = length pairs.
Proof.
  induction pairs as [| p pairs IH]; [reflexivity |]. cbn [omap list_omap].
  destruct (f p); cbn [ok_row skip_line length]; lia.
Qed.

(** C7, as the code has it.  The summary of a processed client holds, in
    configuration order, exactly one row for each configured pair whose row
    builds without raising and none for a pair whose row raises; such a pair
    is skipped and one line naming it and the error is printed, after the
    lines of the three feeds and in configuration order, so that rows and
    skip lines together are as many as the pairs.  Every row comes from a
    configured pair, so an instrument with activity but no configured target
    has no row; and when every configured pair builds, the rows are as many
    as the pairs. *)
Theorem one_row_per_buildable_target co sd client params ob pos hold log rows :
  summarise_client co sd client params ob pos hold = (log, Ok rows) ->
  exists pairs lp hs io,
    get_default params "total_quantity_to_sell" (VDict []) = Ok (VDict pairs)
    /\ snd (process_positions client pos) = Ok lp
    /\ snd (process_holdings client hold) = Ok hs
    /\ snd (process_orders client co ob) = Ok io
    /\ rows = omap (fun p => ok_row (build_row sd lp hs io (fst p) (snd p))) pairs
    /\ (forall r, r ∈ rows ->
        exists ex_id target i,
          (ex_id, target) ∈ pairs /\ int_key ex_id = Ok i /\ Target r = target
          /\ build_row sd lp hs io ex_id target = Ok r)
    /\ (length rows <= length pairs)%nat
    /\ ((forall p, p ∈ pairs -> exists r, build_row sd lp hs io (fst p) (snd p) = Ok r) ->
        length rows = length pairs)
    /\ log = fst (process_positions client pos) ++ fst (process_holdings client hold)
             ++ fst (process_orders client co ob)
             ++ omap (fun p => skip_line client (fst p)
                                 (build_row sd lp hs io (fst p) (snd p))) pairs
    /\ (forall ex_id target e,
        (ex_id, target) ∈ pairs -> build_row sd lp hs io ex_id target = Raise e ->
        InstrumentError ex_id client e ∈ log)
    /\ (length rows
         + length (omap (fun p => skip_line client (fst p)
                                    (build_row sd lp hs io (fst p) (snd p))) pairs))%nat
        = length pairs.
Proof.
  unfold summarise_client. intros H.
  apply bind_ok_inv in H as (l1 & lp & l1' & Hlp & H & ->).
  apply bind_ok_inv in H as (l2 & hs & l2' & Hhs & H & ->).
  apply bind_ok_inv in H as (l3 & io & l3' & Hio & H & ->).
  apply bind_ok_inv in H as (l4 & tq & l4' & Htq & H & ->).
  apply bind_ok_inv in H as (l5 & pairs & l5' & Hit & H & ->).
  assert (l4 = []) as -> by (unfold lift in Htq; congruence).
  assert (l5 = []) as -> by (unfold lift in Hit; congruence).
  apply lift_ok_inv in Htq, Hit.
  destruct tq as [| | | | | d]; try discriminate. injection Hit as ->.
  rewrite (rows_and_lines_of_pairs client sd lp hs io pairs []) in H.
  injection H as <- <-. cbn [app].
  exists pairs, lp, hs, io.
  split; [exact Htq |]. split; [by rewrite Hlp |]. split; [by rewrite Hhs |].
  split; [by rewrite Hio |]. split; [reflexivity |].
  split; [| split; [| split; [| split; [| split]]]].
  - intros r Hr. apply list_elem_of_omap in Hr as ([ex_id target] & Hin & Hok).
    cbn [fst snd] in Hok.
    destruct (build_row sd lp hs io ex_id target) as [r' | e] eqn:Eb; [| discriminate].
    injection Hok as ->. destruct (build_row_key _ _ _ _ _ _ _ Eb) as (i & Hi & Ht).
    by exists ex_id, target, i.
  - clear. induction pairs as [| p pairs IH]; [done |]. cbn [omap list_omap].
    destruct (ok_row _); cbn [length]; lia.
  - clear. induction pairs as [| p pairs IH]; [done |]. intros Hall.
    cbn [omap list_omap].
    destruct (Hall p) as [r Hr]; [by left |]. rewrite Hr. cbn [ok_row length].
    f_equal. apply IH. intros q Hq. apply Hall. by right.
  - by rewrite Hlp, Hhs, Hio.
  - intros ex_id target e Hin Hb. rewrite !elem_of_app. do 3 right.
    apply list_elem_of_omap. exists (ex_id, target). split; [exact Hin |].
    cbn [fst snd]. by rewrite Hb.
  - apply (rows_plus_lines client (fun p => build_row sd lp hs io (fst p) (snd p))).
Qed.

Lemma one_row_per_buildable_target_witness :
  exists pairs,
    get_default (targets [(KInt 100, VInt 50)]) "total_quantity_to_sell" (VDict [])
    = Ok (VDict pairs)
    /\ (length [expected_row] <= length pairs)%nat.
Proof.
  assert (H : summarise_client cutoff [] "C1" (targets [(KInt 100, VInt 50)])
                order_book failure (holdings_feed (holding_of (VInt 100) (VInt 80)))
              = ([], Ok [expected_row])) by (vm_compute; reflexivity).
  destruct (one_row_per_buildable_target _ _ _ _ _ _ _ _ _ H)
    as (pairs & lp & hs & io & Hp & _ & _ & _ & _ & _ & Hlen & _).
  exists pairs. split; [exact Hp | exact Hlen].
Defined.

(** C7 as stated fails: instrument 100 is configured with target 50, the
    holdings feed reports its quantity as the text "80", and the client is
    processed with no row at all; likewise a configured key that is not a
    number yields no row. *)
Lemma configured_pair_without_row :
  generate_summary_data_sell [("C1", targets [(KInt 100, VInt 50)])] cutoff []
    {[ "C1" := text_quantity_api ]}
  = ([InstrumentError (KInt 100) "C1" TypeError], Ok [("C1", [])])
  /\ generate_summary_data_sell [("C1", targets [(KStr "abc", VInt 50)])] cutoff []
       {[ "C1" := good_api ]}
     = ([InstrumentError (KStr "abc") "C1" ValueError], Ok [("C1", [])]).
Proof. split; vm_compute; reflexivity. Qed.


(** *** Skipped clients *)







Lemma snd_bind {A B} (c : M A) (k : A -> M B) :
  snd (bind c k) = match snd c with Ok a => snd (k a) | Raise e => Raise e end.
Proof. destruct c as [l [a | e]]; cbn; [| done]. by destruct (k a). Qed.



(** *** Determinism *)

Lemma client_step_responses co sd apis1 apis2 out c params :
  responses apis1 c = responses apis2 c ->
  client_step co sd apis1 out (c, params) = client_step co sd apis2 out (c, params).
Proof.
  unfold responses, client_step.
  destruct (apis1 !! c) as [a1 |], (apis2 !! c) as [a2 |]; try discriminate.
  - intros [= ->]. reflexivity.
  - reflexivity.
Qed.

Lemma for_each_ext {A B} (f g : A -> B -> M A) (l : list B) :
  (forall a x, x ∈ l -> f a x = g a x) ->
  forall a, for_each f a l = for_each g a l.
Proof.
  induction l as [| x l IH]; intros H a; [reflexivity |].
  cbn [for_each]. rewrite (H a x) by (by left).
  destruct (g a x) as [l1 [a1 | e]]; [| reflexivity].
  unfold bind. rewrite IH; [reflexivity |]. intros a' y Hy. apply H. by right.
Qed.

(** C9. The aggregation is deterministic: two runs with the same client
    configuration, cutoff and instrument metadata, in which the API handles
    answer every configured client identically, produce the same per-client
    rows (and print the same lines). *)
Theorem same_responses_same_rows client_details co sd apis1 apis2 :
  (forall c, c ∈ map fst client_details -> responses apis1 c = responses apis2 c) ->
  generate_summary_data_sell client_details co sd apis1
  = generate_summary_data_sell client_details co sd apis2.
Proof.
  intros H. unfold generate_summary_data_sell. apply for_each_ext.
  intros out [c params] Hin. apply client_step_responses. apply H.
  apply list_elem_of_fmap. by exists (c, params).
Qed.

Lemma same_responses_same_rows_witness :
  generate_summary_data_sell config cutoff metadata {[ "C1" := good_api ]}
  = generate_summary_data_sell config cutoff metadata
      {[ "C1" := other_api; "C9" := failing_api ]}.
Proof.
  apply same_responses_same_rows. intros c Hc.
  apply list_elem_of_singleton in Hc. subst c. vm_compute. reflexivity.
Defined.


(** *** Feed responses *)

(** X18. An answer that is a record and is not tagged 'success' (or has no
    tag at all) is read as an empty feed by all three readers, whatever else
    it carries, and nothing is printed. *)
Lemma non_success_is_empty_feed client co (d : pydict) :
  eq_str (field_or VNone "type" d) "success" = false ->
  process_positions client (VDict d) = ([], Ok ∅)
  /\ process_holdings client (VDict d) = ([], Ok ∅)
  /\ process_orders client co (VDict d) = ([], Ok ∅).
Proof.
  intros H. unfold process_positions, process_holdings, process_orders, get_none.
  rewrite !get_default_dict, !bind_lift_ok. fold (field_or VNone "type" d).
  rewrite H. repeat split; reflexivity.
Qed.

(** C2 fails on the code.  A holdings answer tagged 'success' whose result
    lacks the nested RMSHoldings structure raises KeyError out of the
    aggregation: the run ends there, without output, although the client
    listed after it is well served. *)
Theorem malformed_holdings_abort_run :
  process_holdings "C0" (success (VDict [])) = ([], Raise (KeyError (KStr "RMSHoldings")))
  /\ generate_summary_data_sell (("C0", targets [(KInt 100, VInt 50)]) :: config)
       cutoff metadata {[ "C0" := malformed_holdings_api; "C1" := good_api ]}
     = ([], Raise (KeyError (KStr "RMSHoldings"))).
Proof. split; vm_compute; reflexivity. Qed.

(** *** Totals row *)

Section Totals.

Variable series_sum : list pyval -> outcome pyval.

(** What is assumed of the library's column sum: on a non-empty column of
    64-bit integers whose sum is a 64-bit integer it returns that sum. *)
Hypothesis series_sum_int64 : forall zs,
  zs <> [] -> Forall int64_range zs -> int64_range (sumZ zs) ->
  series_sum (map VInt zs) = Ok (VInt (sumZ zs)).

Lemma frame_columns (rows : list SummaryRow) :
  rows <> [] -> columns (frame_of (map row_dict rows)) = desired_columns.
Proof.
  destruct rows as [| r rows]; [done |]. intros _.
  unfold frame_of. cbn [columns map fold_left].
  change (add_columns [] (row_dict r)) with desired_columns.
  induction rows as [| r' rows IH]; [reflexivity |]. exact IH.
Qed.

Lemma selected_records (rows : list SummaryRow) :
  map (fun r => map (fun c => (c, cell c r)) desired_columns) (map row_dict rows)
  = map row_dict rows.
Proof. rewrite map_map. apply map_ext. intros r. reflexivity. Qed.

Lemma column_sum_int64 (rows : list SummaryRow) (c : string) (zs : list Z) :
  rows <> [] -> has_column desired_columns c = true ->
  cells_of c rows = map VInt zs -> Forall int64_range zs -> int64_range (sumZ zs) ->
  column_sum series_sum
    {| columns := desired_columns; records := map row_dict rows |} c
  = Ok (VInt (sumZ zs)).
Proof.
  intros Hne Hc Hcells Hall Hsum. unfold column_sum, column. cbn [columns records].
  rewrite Hc. cbn [obind]. rewrite map_map. fold (cells_of c rows). rewrite Hcells.
  apply series_sum_int64; [| done | done].
  intros ->. destruct rows; [done | discriminate].
Qed.

(** The first half of C1: for a client with at least one row whose numeric
    cells are 64-bit integers, the appended totals row carries the sum of
    each numeric column. *)
Lemma totals_row_sums (rows : list SummaryRow) (sums : string -> list Z) :
  rows <> [] ->
  (forall c, c ∈ numeric_columns ->
     cells_of c rows = map VInt (sums c)
     /\ Forall int64_range (sums c) /\ int64_range (sumZ (sums c))) ->
  exists total,
    with_totals series_sum rows
    = Ok {| columns := desired_columns; records := map row_dict rows ++ [total] |}
    /\ cell "Instrument" total = VStr "TOTAL"
    /\ forall c, c ∈ numeric_columns -> cell c total = VInt (sumZ (sums c)).
Proof.
  intros Hne Hnum. unfold with_totals.
  rewrite (frame_columns rows Hne).
  change (filter (has_column desired_columns) desired_columns) with desired_columns.
  unfold select. cbn [records frame_of]. rewrite selected_records.
  assert (Hcol : forall c, c ∈ numeric_columns ->
    column_sum series_sum {| columns := desired_columns; records := map row_dict rows |} c
    = Ok (VInt (sumZ (sums c)))).
  { intros c Hc. destruct (Hnum c Hc) as (H1 & H2 & H3).
    apply column_sum_int64; try done.
    unfold numeric_columns in Hc.
    repeat (apply elem_of_cons in Hc as [-> | Hc]; [reflexivity |]).
    by apply elem_of_nil in Hc. }
  rewrite !Hcol
    by (unfold numeric_columns;
        repeat first [apply list_elem_of_here | apply list_elem_of_further]). cbn [obind].
  eexists. split; [reflexivity |]. split; [reflexivity |].
  intros c Hc. unfold numeric_columns in Hc.
  repeat (apply elem_of_cons in Hc as [-> | Hc]; [reflexivity |]).
  by apply elem_of_nil in Hc.
Qed.

End Totals.

(** C1 fails on the code for a client without rows.  The frame of an empty
    row list has no columns, so summing its Target column raises KeyError and
    no totals row is produced.  When that client comes first no sheet has
    been written and the close of the writer raises IndexError; after a
    written sheet the KeyError itself leaves the export.  A configured client
    without sell targets is enough to get there through the entry point. *)
Theorem export_of_empty_client_raises :
  (forall series_sum, with_totals series_sum [] = Raise (KeyError (KStr "Target")))
  /\ (forall series_sum client rest,
     export_summary_to_excel_sell series_sum ((client, []) :: rest) = Raise IndexError)
  /\ export_summary_to_excel_sell exact_sum [("C0", [expected_row]); ("C1", [])]
     = Raise (KeyError (KStr "Target"))
  /\ (forall series_sum,
     generate_excel_summary_sell series_sum [("C1", VDict [])] cutoff metadata
       {[ "C1" := good_api ]}
     = ([], Raise IndexError)).
Proof. repeat split; intros; vm_compute; reflexivity. Qed.


Lemma exact_sum_int (zs : list Z) : exact_sum (map VInt zs) = Ok (VInt (sumZ zs)).
Proof. induction zs as [| z zs IH]; [reflexivity |]. cbn. by rewrite IH. Qed.

Example totals_of_expected_row :
  exists total,
    with_totals exact_sum [expected_row; expected_row]
    = Ok {| columns := desired_columns;
            records := map row_dict [expected_row; expected_row] ++ [total] |}
    /\ cell "Target" total = VInt 100 /\ cell "Remaining" total = VInt 120.
Proof.
  destruct (totals_row_sums exact_sum (fun zs _ _ _ => exact_sum_int zs)
              [expected_row; expected_row]
              (fun c => if String.eqb c "Target" then [50; 50]
                        else if String.eqb c "Executed" then [20; 20]
                        else if String.eqb c "Holding" then [80; 80]
                        else if String.eqb c "Remaining" then [60; 60]
                        else [0; 0])%Z) as (total & Ht & _ & Hc).
  - discriminate.
  - intros c Hc. unfold numeric_columns in Hc.
    repeat (apply elem_of_cons in Hc as [-> | Hc];
            [split; [reflexivity | split; [repeat constructor; vm_compute; congruence
                                          | vm_compute; split; congruence]] |]).
    by apply elem_of_nil in Hc.
  - exists total. split; [exact Ht |]. split.
    + apply (Hc "Target"). repeat first [apply list_elem_of_here | apply list_elem_of_further].
    + apply (Hc "Remaining"). repeat first [apply list_elem_of_here | apply list_elem_of_further].
Qed.


(** ** Further properties of the aggregation *)

(** *** The order loop *)

Lemma order_step_returns client co acc order :
  exists log acc', order_step client co acc order = (log, Ok acc').
Proof.
  unfold order_step.
  destruct (order_body co acc order) as [l [a | e]]; cbn; eauto.
Qed.

(** X1. Whatever the records of the order book are, the order loop does not
    raise: a success-tagged order book whose result is a list (or is absent)
    always yields a tally map. *)
Theorem order_book_list_never_raises client co (d : pydict) (records : list pyval) :
  field_or (VList []) "result" d = VList records ->
  exists log m, process_orders client co (VDict d) = (log, Ok m).
Proof.
  intros Hres. unfold process_orders, get_none.
  rewrite get_default_dict, bind_lift_ok.
  destruct (for_each_total (order_step client co) records
              (fun a x _ => order_step_returns client co a x) ∅) as (log & m & E).
  destruct (for_each_total (order_step client co) []
              (fun a x _ => order_step_returns client co a x) ∅) as (log0 & m0 & E0).
  destruct (eq_str _ _).
  - rewrite get_default_dict, bind_lift_ok. fold (field_or (VList []) "result" d).
    rewrite Hres. cbn [iter]. rewrite bind_lift_ok. eauto.
  - rewrite bind_ret. cbn [iter]. rewrite bind_lift_ok. eauto.
Qed.

Lemma order_book_list_never_raises_witness :
  exists log m,
    process_orders "C1" cutoff
      (success (VList [VStr "not a record"; VDict filled_order; VNone])) = (log, Ok m).
Proof.
  apply (order_book_list_never_raises "C1" cutoff _
           [VStr "not a record"; VDict filled_order; VNone]).
  reflexivity.
Defined.

Lemma credit_comm s1 q1 s2 q2 t :
  credit s1 q1 (credit s2 q2 t) = credit s2 q2 (credit s1 q1 t).
Proof.
  unfold credit, add_executed, add_open, add_rejected.
  destruct t as [e o r].
  repeat match goal with |- context [String.eqb ?a ?b] => destruct (String.eqb a b) end;
    cbn; f_equal; lia.
Qed.

Lemma apply_effect_comm e1 e2 (m : gmap Z tally) :
  apply_effect e1 (apply_effect e2 m) = apply_effect e2 (apply_effect e1 m).
Proof.
  destruct e1 as [[[i s1] q1] |], e2 as [[[j s2] q2] |]; try reflexivity.
  unfold apply_effect, bump. destruct (decide (i = j)) as [-> | Hne].
  - rewrite !lookup_insert_eq, !insert_insert_eq. cbn [from_option id].
    by rewrite credit_comm.
  - rewrite (lookup_insert_ne _ j i) by done. rewrite (lookup_insert_ne _ i j) by done.
    by apply insert_insert_ne.
Qed.

Lemma tally_order_dict acc d :
  tally_order acc (VDict d) =
    match int (field_or (VInt 0) "ExchangeInstrumentID" d) with
    | Raise e => ([], Raise e)
    | Ok i =>
        if Z.eqb i 0 then ([], Ok acc) else
        match str_upper (field_or (VStr "") "OrderStatus" d) with
        | Raise e => ([], Raise e)
        | Ok status =>
            match int (field_or (VInt 0) "OrderQuantity" d) with
            | Raise e => ([], Raise e)
            | Ok q =>
                ([], Ok (if recognised status then bump (credit status q) i acc else acc))
            end
        end
    end.
Proof.
  unfold tally_order, field_or. rewrite get_default_dict, bind_lift_ok.
  destruct (int _) as [i | e]; [| reflexivity]. rewrite bind_lift_ok.
  destruct (Z.eqb i 0); [reflexivity |].
  rewrite get_default_dict, bind_lift_ok.
  destruct (str_upper _) as [status | e]; [| reflexivity]. rewrite bind_lift_ok.
  rewrite get_default_dict, bind_lift_ok.
  destruct (int _) as [q | e]; [| reflexivity]. rewrite bind_lift_ok.
  unfold recognised, credit.
  destruct (String.eqb status "FILLED"); [reflexivity |].
  destruct (String.eqb status "OPEN"); [reflexivity |].
  destruct (String.eqb status "REJECTED"); reflexivity.
Qed.

Lemma order_step_dict client co acc d :
  order_step client co acc (VDict d) =
    match parse_order_time (field_or (VStr "") "OrderDateTime" d) with
    | (log, Raise e) => (log ++ [OrderError client e], Ok acc)
    | (log, Ok None) => (log, Ok acc)
    | (log, Ok (Some t)) =>
        if Datetime.ltb t co then (log, Ok acc)
        else match tally_order acc (VDict d) with
             | (l, Raise e) => (log ++ l ++ [OrderError client e], Ok acc)
             | (l, Ok acc') => (log ++ l, Ok acc')
             end
    end.
Proof.
  unfold order_step, order_body, field_or. rewrite get_default_dict, bind_lift_ok.
  remember (tally_order acc (VDict d)) as T eqn:ET.
  destruct (parse_order_time _) as [log [[t |] | e]]; unfold bind; cbv beta iota.
  - destruct (Datetime.ltb t co).
    + cbn. by rewrite app_nil_r.
    + destruct T as [l [a | e]]; cbn; [done |].
      by rewrite <- app_assoc.
  - cbn. by rewrite app_nil_r.
  - cbn. reflexivity.
Qed.

Lemma order_step_effect client co order :
  exists eff, forall acc,
    snd (order_step client co acc order) = Ok (apply_effect eff acc).
Proof.
  destruct order as [| b | z | s | l | d]; try (exists None; intros; reflexivity).
  destruct (parse_order_time (field_or (VStr "") "OrderDateTime" d))
    as [log [[t |] | e]] eqn:E;
    [| exists None; intros acc; by rewrite order_step_dict, E ..].
  destruct (Datetime.ltb t co) eqn:Hlt;
    [exists None; intros acc; by rewrite order_step_dict, E, Hlt |].
  destruct (int (field_or (VInt 0) "ExchangeInstrumentID" d)) as [i | e] eqn:Hi;
    [| exists None; intros acc; by rewrite order_step_dict, E, Hlt, tally_order_dict, Hi].
  destruct (Z.eqb i 0) eqn:Hz;
    [exists None; intros acc; by rewrite order_step_dict, E, Hlt, tally_order_dict, Hi, Hz |].
  destruct (str_upper (field_or (VStr "") "OrderStatus" d)) as [status | e] eqn:Hs;
    [| exists None; intros acc;
       by rewrite order_step_dict, E, Hlt, tally_order_dict, Hi, Hz, Hs].
  destruct (int (field_or (VInt 0) "OrderQuantity" d)) as [q | e] eqn:Hq;
    [| exists None; intros acc;
       by rewrite order_step_dict, E, Hlt, tally_order_dict, Hi, Hz, Hs, Hq].
  destruct (recognised status) eqn:Hr.
  - exists (Some (i, status, q)). intros acc.
    by rewrite order_step_dict, E, Hlt, tally_order_dict, Hi, Hz, Hs, Hq, Hr.
  - exists None. intros acc.
    by rewrite order_step_dict, E, Hlt, tally_order_dict, Hi, Hz, Hs, Hq, Hr.
Qed.

Lemma snd_for_each_cons {A B} (f : A -> B -> M A) (g : A -> A) (x : B) (l : list B) :
  (forall a, snd (f a x) = Ok (g a)) ->
  forall a, snd (for_each f a (x :: l)) = snd (for_each f (g a) l).
Proof. intros H a. cbn [for_each]. by rewrite snd_bind, H. Qed.

Lemma process_orders_success_list client co (records : list pyval) :
  process_orders client co
    (VDict [(KStr "type", VStr "success"); (KStr "result", VList records)])
  = for_each (order_step client co) ∅ records.
Proof.
  unfold process_orders. cbn -[for_each order_step].
  destruct (for_each (order_step client co) ∅ records) as [l r]. reflexivity.
Qed.

(** X2. The order book is a sum, not a sequence: processing the same order
    records in another order gives the same tallies. *)
Theorem order_tallies_ignore_record_order client co (orders1 orders2 : list pyval) :
  Permutation orders1 orders2 ->
  (forall acc,
     snd (for_each (order_step client co) acc orders1)
     = snd (for_each (order_step client co) acc orders2))
  /\ snd (process_orders client co
            (VDict [(KStr "type", VStr "success"); (KStr "result", VList orders1)]))
     = snd (process_orders client co
              (VDict [(KStr "type", VStr "success"); (KStr "result", VList orders2)])).
Proof.
  intros Hperm.
  assert (Hfold : forall acc,
     snd (for_each (order_step client co) acc orders1)
     = snd (for_each (order_step client co) acc orders2)).
  { induction Hperm as [| x l1 l2 _ IH | x y l | l1 l2 l3 _ IH1 _ IH2]; intros acc.
    - reflexivity.
    - destruct (order_step_effect client co x) as [eff He].
      rewrite !(snd_for_each_cons _ (apply_effect eff) x _ He). apply IH.
    - destruct (order_step_effect client co x) as [ex Hx].
      destruct (order_step_effect client co y) as [ey Hy].
      rewrite (snd_for_each_cons _ (apply_effect ey) y _ Hy).
      rewrite (snd_for_each_cons _ (apply_effect ex) x _ Hx).
      rewrite (snd_for_each_cons _ (apply_effect ex) x _ Hx).
      rewrite (snd_for_each_cons _ (apply_effect ey) y _ Hy).
      by rewrite apply_effect_comm.
    - by rewrite IH1. }
  split; [exact Hfold |].
  rewrite !process_orders_success_list. apply Hfold.
Qed.

Lemma order_tallies_ignore_record_order_witness :
  snd (process_orders "C1" cutoff
         (VDict [(KStr "type", VStr "success");
                 (KStr "result", VList [VDict filled_order; VDict order_at_cutoff])]))
  = snd (process_orders "C1" cutoff
           (VDict [(KStr "type", VStr "success");
                   (KStr "result", VList [VDict order_at_cutoff; VDict filled_order])])).
Proof.
  apply (order_tallies_ignore_record_order "C1" cutoff
           [VDict filled_order; VDict order_at_cutoff]
           [VDict order_at_cutoff; VDict filled_order]).
  apply perm_swap.
Defined.


(** *** Position and holding feeds: last record wins *)

Lemma for_each_map {A B C} (f : A -> B -> M A) (g : C -> B) (l : list C) (a : A) :
  for_each f a (map g l) = for_each (fun a x => f a (g x)) a l.
Proof.
  revert a. induction l as [| x l IH]; intros a; [reflexivity |].
  cbn [map for_each]. destruct (f a (g x)) as [l1 [a1 | e]]; [| reflexivity].
  unfold bind. by rewrite IH.
Qed.

Section KeyedFeed.

Context {V R : Type}.
Variable step : gmap Z V -> R -> M (gmap Z V).
Variable key : R -> option Z.
Variable val : R -> V.

Hypothesis step_stores : forall acc r, exists log,
  step acc r = (log, Ok (match key r with
                         | Some i => <[i := val r]> acc
                         | None => acc
                         end)).

Lemma keyed_feed_returns (l : list R) :
  forall acc, exists log m, for_each step acc l = (log, Ok m).
Proof.
  apply for_each_total. intros a x _. destruct (step_stores a x) as [log E]. eauto.
Qed.

Lemma keyed_feed_untouched (j : Z) (l : list R) :
  (forall r, r ∈ l -> key r <> Some j) ->
  forall acc log m, for_each step acc l = (log, Ok m) -> m !! j = acc !! j.
Proof.
  induction l as [| r l IH]; intros Hl acc log m.
  - intros [= _ <-]. reflexivity.
  - cbn [for_each]. destruct (step_stores acc r) as [l1 E1]. rewrite E1.
    intros H. apply bind_ok_inv in H as (l1' & a1 & l2 & [= _ <-] & H2 & _).
    rewrite (IH (fun r' Hr' => Hl r' (list_elem_of_further _ _ _ Hr')) _ _ _ H2).
    specialize (Hl r (list_elem_of_here _ _)).
    destruct (key r) as [i |]; [| reflexivity].
    apply lookup_insert_ne. congruence.
Qed.

Lemma keyed_feed_last (i : Z) (before after : list R) (r : R) :
  key r = Some i ->
  (forall r', r' ∈ after -> key r' <> Some i) ->
  forall acc, exists log m,
    for_each step acc (before ++ r :: after) = (log, Ok m)
    /\ m !! i = Some (val r).
Proof.
  intros Hk Hafter acc.
  destruct (keyed_feed_returns (before ++ r :: after) acc) as (log & m & E).
  exists log, m. split; [exact E |].
  rewrite for_each_app in E. apply bind_ok_inv in E as (l1 & a1 & l2 & _ & E & _).
  cbn [for_each] in E. destruct (step_stores a1 r) as [l3 E3]. rewrite E3, Hk in E.
  apply bind_ok_inv in E as (l3' & a3 & l4 & [= _ <-] & E & _).
  rewrite (keyed_feed_untouched i after Hafter _ _ _ E).
  apply lookup_insert_eq.
Qed.

End KeyedFeed.

Lemma position_step_stores client acc (d : pydict) :
  exists log,
    position_step client acc (VDict d)
    = (log, Ok (match position_key d with
                | Some i => <[i := stored_position d]> acc
                | None => acc
                end)).
Proof.
  rewrite position_step_dict. unfold position_key.
  destruct (truthy (position_id d)); [| by eexists].
  destruct (int (position_id d)); by eexists.
Qed.

Lemma holding_step_stores client acc (kv : pykey * pydict) :
  exists log,
    holding_step client acc (fst kv, VDict (snd kv))
    = (log, Ok (match holding_key (snd kv) with
                | Some i => <[i := stored_holding (snd kv)]> acc
                | None => acc
                end)).
Proof.
  rewrite holding_step_dict. unfold holding_key.
  destruct (truthy (holding_id (snd kv))); [| by eexists].
  destruct (int (holding_id (snd kv))); by eexists.
Qed.

(** X3. Positions and holdings are kept per instrument with the last record
    winning: after a feed of records, the entry of an instrument is the one
    of the last record stored under it, and an instrument that no record of
    the feed is stored under keeps the entry it had. *)
Theorem feeds_keep_last_record client :
  (forall acc (before after : list pydict) d i,
     position_key d = Some i ->
     (forall d', d' ∈ after -> position_key d' <> Some i) ->
     exists log m,
       for_each (position_step client) acc (map VDict (before ++ d :: after)) = (log, Ok m)
       /\ m !! i = Some (stored_position d))
  /\ (forall acc (before after : list (pykey * pydict)) kv i,
     holding_key (snd kv) = Some i ->
     (forall kv', kv' ∈ after -> holding_key (snd kv') <> Some i) ->
     exists log m,
       for_each (holding_step client) acc
         (map (fun kv => (fst kv, VDict (snd kv))) (before ++ kv :: after)) = (log, Ok m)
       /\ m !! i = Some (stored_holding (snd kv)))
  /\ (forall acc (ds : list pydict) j log m,
     (forall d, d ∈ ds -> position_key d <> Some j) ->
     for_each (position_step client) acc (map VDict ds) = (log, Ok m) ->
     m !! j = acc !! j)
  /\ (forall acc (hs : list (pykey * pydict)) j log m,
     (forall kv, kv ∈ hs -> holding_key (snd kv) <> Some j) ->
     for_each (holding_step client) acc (map (fun kv => (fst kv, VDict (snd kv))) hs)
     = (log, Ok m) ->
     m !! j = acc !! j).
Proof.
  split; [| split; [| split]].
  - intros acc before after d i Hk Hafter. rewrite for_each_map.
    exact (keyed_feed_last (fun a d => position_step client a (VDict d))
             position_key stored_position (position_step_stores client)
             i before after d Hk Hafter acc).
  - intros acc before after kv i Hk Hafter. rewrite for_each_map.
    exact (keyed_feed_last (fun a kv => holding_step client a (fst kv, VDict (snd kv)))
             (fun kv => holding_key (snd kv)) (fun kv => stored_holding (snd kv))
             (holding_step_stores client)
             i before after kv Hk Hafter acc).
  - intros acc ds j log m Hds. rewrite for_each_map.
    exact (keyed_feed_untouched (fun a d => position_step client a (VDict d))
             position_key stored_position (position_step_stores client)
             j ds Hds acc log m).
  - intros acc hs j log m Hhs. rewrite for_each_map.
    exact (keyed_feed_untouched (fun a kv => holding_step client a (fst kv, VDict (snd kv)))
             (fun kv => holding_key (snd kv)) (fun kv => stored_holding (snd kv))
             (holding_step_stores client)
             j hs Hhs acc log m).
Qed.

Lemma feeds_keep_last_record_witness :
  exists log m,
    for_each (position_step "C1") ∅
      (map VDict
         ([[(KStr "ExchangeInstrumentID", VInt 100); (KStr "Quantity", VInt 1)]]
          ++ [(KStr "ExchangeNSEInstrumentID", VStr "100"); (KStr "Quantity", VInt 7)]
          :: [[(KStr "ExchangeInstrumentID", VInt 200); (KStr "Quantity", VInt 3)]]))
    = (log, Ok m)
    /\ m !! 100%Z
       = Some (stored_position
                 [(KStr "ExchangeNSEInstrumentID", VStr "100"); (KStr "Quantity", VInt 7)]).
Proof.
  destruct (feeds_keep_last_record "C1") as (Hp & _).
  apply Hp.
  - vm_compute. reflexivity.
  - intros d' Hd'. apply list_elem_of_singleton in Hd'. subst d'.
    vm_compute. discriminate.
Defined.


(** *** Entries that are not records *)

Lemma for_each_raises {A B} (f : A -> B -> M A) (e : exn) (x : B) :
  (forall a, f a x = ([], Raise e)) ->
  forall before rest a,
    (exists log a', for_each f a before = (log, Ok a')) ->
    exists log, for_each f a (before ++ x :: rest) = (log, Raise e).
Proof.
  intros Hx before rest a (log & a' & E). exists log.
  rewrite for_each_app, E. unfold bind at 1. cbn [for_each]. rewrite Hx.
  cbn. by rewrite app_nil_r.
Qed.

(** X4. A feed entry that is not a record is handled differently by the three
    loops: in the order book it is logged and skipped, while in the positions
    and holdings feeds it raises AttributeError outside any handler, which
    ends the scan of the feed whatever the entries around it. *)
Theorem entry_that_is_not_a_record client (v : pyval) :
  is_dict v = false ->
  (forall co acc, order_step client co acc v = ([OrderError client AttributeError], Ok acc))
  /\ (forall acc, position_step client acc v = ([], Raise AttributeError))
  /\ (forall acc isin, holding_step client acc (isin, v) = ([], Raise AttributeError))
  /\ (forall acc (ds : list pydict) rest, exists log,
        for_each (position_step client) acc (map VDict ds ++ v :: rest)
        = (log, Raise AttributeError))
  /\ (forall acc (hs : list (pykey * pydict)) isin rest, exists log,
        for_each (holding_step client) acc
          (map (fun kv => (fst kv, VDict (snd kv))) hs ++ (isin, v) :: rest)
        = (log, Raise AttributeError)).
Proof.
  intros Hv.
  assert (Hpos : forall acc, position_step client acc v = ([], Raise AttributeError))
    by (destruct v; try discriminate; reflexivity).
  assert (Hhold : forall acc isin,
            holding_step client acc (isin, v) = ([], Raise AttributeError))
    by (destruct v; try discriminate; reflexivity).
  split; [destruct v; try discriminate; reflexivity |].
  split; [exact Hpos |]. split; [exact Hhold |]. split.
  - intros acc ds rest. apply for_each_raises; [exact Hpos |].
    apply for_each_total. intros a x Hx.
    apply list_elem_of_fmap in Hx as (d & -> & _). apply position_step_returns.
  - intros acc hs isin rest. apply for_each_raises; [intros a; apply Hhold |].
    apply for_each_total. intros a x Hx.
    apply list_elem_of_fmap in Hx as (kv & -> & _). apply holding_step_returns.
Qed.

Lemma entry_that_is_not_a_record_witness :
  order_step "C1" cutoff ∅ (VStr "INFY") = ([OrderError "C1" AttributeError], Ok ∅)
  /\ position_step "C1" ∅ (VStr "INFY") = ([], Raise AttributeError).
Proof.
  destruct (entry_that_is_not_a_record "C1" (VStr "INFY") eq_refl) as (Ho & Hp & _).
  split; [apply Ho | apply Hp].
Defined.

(** *** Orders without a usable timestamp, number or status *)

Lemma parse_order_time_not_str (v : pyval) :
  is_str v = false -> parse_order_time v = ([], Raise TypeError).
Proof. destruct v; try discriminate; reflexivity. Qed.

Lemma parse_order_time_empty :
  parse_order_time (VStr "") = ([WarnTimestamp (VStr "")], Ok None).
Proof. vm_compute. reflexivity. Qed.

(** X5. An order record without an OrderDateTime is read with the empty text,
    which no format parses: it is skipped with the timestamp warning.  One
    whose OrderDateTime is not text makes the parser raise TypeError, which
    the order loop logs before skipping the record; one whose text no format
    parses is skipped with the warning. *)
Theorem order_without_usable_timestamp client co acc (d : pydict) :
  (lookup_item (KStr "OrderDateTime") d = None ->
     order_step client co acc (VDict d) = ([WarnTimestamp (VStr "")], Ok acc))
  /\ (forall v, lookup_item (KStr "OrderDateTime") d = Some v -> is_str v = false ->
     order_step client co acc (VDict d) = ([OrderError client TypeError], Ok acc))
  /\ (forall s, lookup_item (KStr "OrderDateTime") d = Some (VStr s) ->
     spec_first_parsed s formats = None ->
     order_step client co acc (VDict d) = ([WarnTimestamp (VStr s)], Ok acc)).
Proof.
  split; [| split].
  - intros H. rewrite order_step_dict. unfold field_or. rewrite H. cbn [from_option].
    by rewrite parse_order_time_empty.
  - intros v H Hv. rewrite order_step_dict. unfold field_or. rewrite H. cbn [from_option id].
    by rewrite (parse_order_time_not_str v Hv).
  - intros s H Hs. rewrite order_step_dict. unfold field_or. rewrite H. cbn [from_option id].
    unfold parse_order_time. by rewrite try_formats_first_parsed, Hs.
Qed.

Lemma order_without_usable_timestamp_witness :
  order_step "C1" cutoff ∅
    (VDict [(KStr "ExchangeInstrumentID", VInt 100); (KStr "OrderStatus", VStr "FILLED");
            (KStr "OrderQuantity", VInt 20)])
  = ([WarnTimestamp (VStr "")], Ok ∅)
  /\ order_step "C1" cutoff ∅
       (VDict [(KStr "OrderDateTime", VInt 1707820200);
               (KStr "ExchangeInstrumentID", VInt 100)])
     = ([OrderError "C1" TypeError], Ok ∅)
  /\ order_step "C1" cutoff ∅
       (VDict [(KStr "OrderDateTime", VStr "2024-02-30 10:30:00");
               (KStr "ExchangeInstrumentID", VInt 100)])
     = ([WarnTimestamp (VStr "2024-02-30 10:30:00")], Ok ∅).
Proof.
  split; [| split].
  - destruct (order_without_usable_timestamp "C1" cutoff ∅
                [(KStr "ExchangeInstrumentID", VInt 100);
                 (KStr "OrderStatus", VStr "FILLED");
                 (KStr "OrderQuantity", VInt 20)]) as (H & _).
    apply H. reflexivity.
  - destruct (order_without_usable_timestamp "C1" cutoff ∅
                [(KStr "OrderDateTime", VInt 1707820200);
                 (KStr "ExchangeInstrumentID", VInt 100)]) as (_ & H & _).
    apply (H (VInt 1707820200)); reflexivity.
  - destruct (order_without_usable_timestamp "C1" cutoff ∅
                [(KStr "OrderDateTime", VStr "2024-02-30 10:30:00");
                 (KStr "ExchangeInstrumentID", VInt 100)]) as (_ & _ & H).
    apply H; [reflexivity | vm_compute; reflexivity].
Defined.

(** X6. An order that passes the cutoff but whose instrument id or quantity does
    not coerce to an integer is logged with the coercion error and leaves
    every tally as it was; for the quantity this holds whatever the status,
    recognised or not. *)
Theorem order_with_bad_number_logged client co acc (d : pydict) t e :
  parse_order_time (field_or (VStr "") "OrderDateTime" d) = ([], Ok (Some t)) ->
  Datetime.geb t co = true ->
  (int (field_or (VInt 0) "ExchangeInstrumentID" d) = Raise e ->
     order_step client co acc (VDict d) = ([OrderError client e], Ok acc))
  /\ (forall i status,
     int (field_or (VInt 0) "ExchangeInstrumentID" d) = Ok i -> i <> 0%Z ->
     str_upper (field_or (VStr "") "OrderStatus" d) = Ok status ->
     int (field_or (VInt 0) "OrderQuantity" d) = Raise e ->
     order_step client co acc (VDict d) = ([OrderError client e], Ok acc)).
Proof.
  intros Hp Hge. unfold Datetime.geb in Hge. apply negb_true_iff in Hge.
  split.
  - intros Hi. by rewrite order_step_dict, Hp, Hge, tally_order_dict, Hi.
  - intros i status Hi Hne Hs Hq. apply Z.eqb_neq in Hne.
    by rewrite order_step_dict, Hp, Hge, tally_order_dict, Hi, Hne, Hs, Hq.
Qed.

Lemma order_with_bad_number_logged_witness :
  order_step "C1" cutoff ∅
    (VDict [(KStr "OrderDateTime", VStr "2024-02-13 10:30:00");
            (KStr "ExchangeInstrumentID", VStr "NSE:100");
            (KStr "OrderStatus", VStr "FILLED"); (KStr "OrderQuantity", VInt 20)])
  = ([OrderError "C1" ValueError], Ok ∅)
  /\ order_step "C1" cutoff ∅
       (VDict [(KStr "OrderDateTime", VStr "2024-02-13 10:30:00");
               (KStr "ExchangeInstrumentID", VInt 100);
               (KStr "OrderStatus", VStr "CANCELLED"); (KStr "OrderQuantity", VNone)])
     = ([OrderError "C1" TypeError], Ok ∅).
Proof.
  split.
  - destruct (order_with_bad_number_logged "C1" cutoff ∅
                [(KStr "OrderDateTime", VStr "2024-02-13 10:30:00");
                 (KStr "ExchangeInstrumentID", VStr "NSE:100");
                 (KStr "OrderStatus", VStr "FILLED"); (KStr "OrderQuantity", VInt 20)]
                (mk_datetime 2024 2 13 10 30 0 0) ValueError) as (H & _);
      [vm_compute; reflexivity | vm_compute; reflexivity |].
    apply H. vm_compute. reflexivity.
  - destruct (order_with_bad_number_logged "C1" cutoff ∅
                [(KStr "OrderDateTime", VStr "2024-02-13 10:30:00");
                 (KStr "ExchangeInstrumentID", VInt 100);
                 (KStr "OrderStatus", VStr "CANCELLED"); (KStr "OrderQuantity", VNone)]
                (mk_datetime 2024 2 13 10 30 0 0) TypeError) as (_ & H);
      [vm_compute; reflexivity | vm_compute; reflexivity |].
    apply (H 100%Z "CANCELLED"%string); try (vm_compute; reflexivity). lia.
Defined.

(** X7. An order that passes the cutoff with a status that is text but, once
    upper-cased, none of FILLED, OPEN and REJECTED changes nothing, creates no
    entry for its instrument and prints nothing; a status that is not text is
    logged as an error. *)
Theorem order_with_other_status client co acc (d : pydict) t i :
  parse_order_time (field_or (VStr "") "OrderDateTime" d) = ([], Ok (Some t)) ->
  Datetime.geb t co = true ->
  int (field_or (VInt 0) "ExchangeInstrumentID" d) = Ok i -> i <> 0%Z ->
  (forall status q,
     str_upper (field_or (VStr "") "OrderStatus" d) = Ok status ->
     recognised status = false ->
     int (field_or (VInt 0) "OrderQuantity" d) = Ok q ->
     order_step client co acc (VDict d) = ([], Ok acc))
  /\ (is_str (field_or (VStr "") "OrderStatus" d) = false ->
     order_step client co acc (VDict d) = ([OrderError client AttributeError], Ok acc)).
Proof.
  intros Hp Hge Hi Hne. unfold Datetime.geb in Hge. apply negb_true_iff in Hge.
  apply Z.eqb_neq in Hne. split.
  - intros status q Hs Hr Hq.
    by rewrite order_step_dict, Hp, Hge, tally_order_dict, Hi, Hne, Hs, Hq, Hr.
  - intros Hs. rewrite order_step_dict, Hp, Hge, tally_order_dict, Hi, Hne.
    destruct (field_or (VStr "") "OrderStatus" d); try discriminate; reflexivity.
Qed.

Lemma order_with_other_status_witness :
  order_step "C1" cutoff ∅
    (VDict [(KStr "OrderDateTime", VStr "2024-02-13 10:30:00");
            (KStr "ExchangeInstrumentID", VInt 100);
            (KStr "OrderStatus", VStr "Cancelled"); (KStr "OrderQuantity", VInt 20)])
  = ([], Ok ∅).
Proof.
  destruct (order_with_other_status "C1" cutoff ∅
              [(KStr "OrderDateTime", VStr "2024-02-13 10:30:00");
               (KStr "ExchangeInstrumentID", VInt 100);
               (KStr "OrderStatus", VStr "Cancelled"); (KStr "OrderQuantity", VInt 20)]
              (mk_datetime 2024 2 13 10 30 0 0) 100%Z) as (H & _);
    [vm_compute; reflexivity | vm_compute; reflexivity | vm_compute; reflexivity | lia |].
  apply (H "CANCELLED"%string 20%Z); vm_compute; reflexivity.
Defined.

(** *** Success-tagged answers without a result *)

(** X8. The three feeds treat a success-tagged answer that has no result
    differently: the order book reads it as an empty list, while the
    positions and the holdings readers raise KeyError for the missing key.
    A positions result without a positionList is an empty feed. *)
Theorem success_without_result client (d : pydict) :
  eq_str (field_or VNone "type" d) "success" = true ->
  (lookup_item (KStr "result") d = None ->
     (forall co, process_orders client co (VDict d) = ([], Ok ∅))
     /\ process_positions client (VDict d) = ([], Raise (KeyError (KStr "result")))
     /\ process_holdings client (VDict d) = ([], Raise (KeyError (KStr "result"))))
  /\ (forall r, lookup_item (KStr "result") d = Some (VDict r) ->
      lookup_item (KStr "positionList") r = None ->
      process_positions client (VDict d) = ([], Ok ∅)).
Proof.
  intros Hty. split.
  - intros Hres. split; [| split].
    + intros co. unfold process_orders, get_none.
      rewrite get_default_dict, bind_lift_ok. fold (field_or VNone "type" d).
      rewrite Hty, get_default_dict, Hres. reflexivity.
    + unfold process_positions, get_none.
      rewrite get_default_dict, bind_lift_ok. fold (field_or VNone "type" d).
      rewrite Hty. unfold subscript. rewrite Hres. reflexivity.
    + unfold process_holdings, get_none.
      rewrite get_default_dict, bind_lift_ok. fold (field_or VNone "type" d).
      rewrite Hty. unfold subscript. rewrite Hres. reflexivity.
  - intros r Hres Hlist. unfold process_positions, get_none.
    rewrite get_default_dict, bind_lift_ok. fold (field_or VNone "type" d).
    rewrite Hty. unfold subscript at 1. rewrite Hres, bind_lift_ok.
    rewrite get_default_dict, Hlist. reflexivity.
Qed.

Lemma success_without_result_witness :
  process_orders "C1" cutoff (VDict [(KStr "type", VStr "success")]) = ([], Ok ∅)
  /\ process_positions "C1" (VDict [(KStr "type", VStr "success")])
     = ([], Raise (KeyError (KStr "result")))
  /\ process_positions "C1" (success (VDict [])) = ([], Ok ∅).
Proof.
  destruct (success_without_result "C1" [(KStr "type", VStr "success")] eq_refl)
    as [H _].
  destruct (H eq_refl) as (Ho & Hp & _).
  destruct (success_without_result "C1"
              [(KStr "type", VStr "success"); (KStr "result", VDict [])] eq_refl)
    as [_ H'].
  split; [apply Ho |]. split; [exact Hp |].
  apply (H' [] eq_refl eq_refl).
Defined.


(** *** The workbook *)

Lemma take_str_length (n : nat) (s : string) :
  String.length (take_str n s) = Nat.min n (String.length s).
Proof.
  revert s. induction n as [| n IH]; intros [| c s]; cbn; try reflexivity.
  by rewrite IH.
Qed.

Lemma take_str_all (n : nat) (s : string) :
  (String.length s <= n)%nat -> take_str n s = s.
Proof.
  revert s. induction n as [| n IH]; intros [| c s]; cbn; try reflexivity; try lia.
  intros H. rewrite IH; [reflexivity | lia].
Qed.

Lemma with_totals_shape series_sum (rows : list SummaryRow) (df : DataFrame) :
  with_totals series_sum rows = Ok df ->
  rows <> []
  /\ columns df = desired_columns
  /\ exists total,
       records df = map row_dict rows ++ [total]
       /\ cell "Instrument" total = VStr "TOTAL"
       /\ forall c, c ∈ numeric_columns -> series_sum (cells_of c rows) = Ok (cell c total).
Proof.
  destruct rows as [| r0 rows0]; [discriminate |].
  set (rows := r0 :: rows0). assert (Hne : rows <> []) by discriminate.
  unfold with_totals. rewrite (frame_columns rows Hne).
  change (filter (has_column desired_columns) desired_columns) with desired_columns.
  unfold select. cbn [records frame_of]. rewrite selected_records.
  assert (Hcol : forall c, has_column desired_columns c = true ->
    column_sum series_sum {| columns := desired_columns; records := map row_dict rows |} c
    = series_sum (cells_of c rows)).
  { intros c Hc. unfold column_sum, column. cbn [columns records]. rewrite Hc.
    cbn [obind]. by rewrite map_map. }
  rewrite !Hcol by reflexivity.
  destruct (series_sum (cells_of "Target" rows)) as [t |] eqn:E1; [| discriminate].
  destruct (series_sum (cells_of "Executed" rows)) as [ex |] eqn:E2; [| discriminate].
  destruct (series_sum (cells_of "Open" rows)) as [op |] eqn:E3; [| discriminate].
  destruct (series_sum (cells_of "Rejected" rows)) as [rj |] eqn:E4; [| discriminate].
  destruct (series_sum (cells_of "Live Pos" rows)) as [lv |] eqn:E5; [| discriminate].
  destruct (series_sum (cells_of "Holding" rows)) as [ho |] eqn:E6; [| discriminate].
  destruct (series_sum (cells_of "Remaining" rows)) as [rm |] eqn:E7; [| discriminate].
  cbn [obind]. intros [= <-].
  split; [exact Hne |]. split; [reflexivity |].
  eexists. split; [reflexivity |]. split; [reflexivity |].
  intros c Hc. unfold numeric_columns in Hc.
  repeat (apply elem_of_cons in Hc as [-> | Hc]; [assumption |]).
  by apply elem_of_nil in Hc.
Qed.

Lemma write_sheets_all series_sum (summary_data : summary) (sheets : list sheet) :
  write_sheets series_sum summary_data = (sheets, None) ->
  length sheets = length summary_data
  /\ forall k client rows,
       summary_data !! k = Some (client, rows) ->
       exists sh total,
         sheets !! k = Some sh
         /\ sheet_name sh = take_str 31 client
         /\ (String.length (sheet_name sh) <= 31)%nat
         /\ (String.length client <= 31 -> sheet_name sh = client)%nat
         /\ rows <> []
         /\ columns (content sh) = desired_columns
         /\ records (content sh) = map row_dict rows ++ [total]
         /\ cell "Instrument" total = VStr "TOTAL"
         /\ forall c, c ∈ numeric_columns ->
              series_sum (cells_of c rows) = Ok (cell c total).
Proof.
  revert sheets. induction summary_data as [| [client0 rows0] sd IH]; intros sheets.
  - intros [= <-]. split; [reflexivity |]. intros k client rows H. by destruct k.
  - cbn [write_sheets].
    destruct (with_totals series_sum rows0) as [df |] eqn:Hdf; [| discriminate].
    destruct (write_sheets series_sum sd) as [rest err] eqn:Hrest.
    intros [= <- ->]. destruct (IH rest eq_refl) as [Hlen Hk].
    split; [cbn; by rewrite Hlen |].
    intros [| k] client rows Hlook.
    + injection Hlook as <- <-.
      destruct (with_totals_shape _ _ _ Hdf) as (Hne & Hcols & total & Hrec & Hlab & Hsum).
      exists {| sheet_name := take_str 31 client0; content := df |}, total.
      cbn [sheet_name content]. split; [reflexivity |]. split; [reflexivity |].
      split; [rewrite take_str_length; lia |].
      split; [apply take_str_all |]. done.
    + apply (Hk k client rows Hlook).
Qed.

Lemma export_returns_inv series_sum (summary_data : summary) (sheets : list sheet) :
  export_summary_to_excel_sell series_sum summary_data = Ok sheets ->
  write_sheets series_sum summary_data = (sheets, None) /\ sheets <> [].
Proof.
  unfold export_summary_to_excel_sell.
  destruct (write_sheets series_sum summary_data) as [[| sh written] [e |]];
    try discriminate.
  by intros [= <-].
Qed.

(** X9. When the export returns, it has made one [to_excel] call per client of
    the summary, in the summary's order, under the first 31 characters of the
    client id (the id itself when it is that short).  Every client then has
    at least one row, and each sheet holds the fixed columns, the client's
    rows unchanged and in order, and last a row labelled TOTAL whose numeric
    cells are the library's sums of the columns. *)
Theorem export_writes_one_sheet_per_client series_sum (summary_data : summary)
    (sheets : list sheet) :
  export_summary_to_excel_sell series_sum summary_data = Ok sheets ->
  length sheets = length summary_data
  /\ forall k client rows,
       summary_data !! k = Some (client, rows) ->
       exists sh total,
         sheets !! k = Some sh
         /\ sheet_name sh = take_str 31 client
         /\ (String.length (sheet_name sh) <= 31)%nat
         /\ (String.length client <= 31 -> sheet_name sh = client)%nat
         /\ rows <> []
         /\ columns (content sh) = desired_columns
         /\ records (content sh) = map row_dict rows ++ [total]
         /\ cell "Instrument" total = VStr "TOTAL"
         /\ forall c, c ∈ numeric_columns ->
              series_sum (cells_of c rows) = Ok (cell c total).
Proof.
  intros H. apply export_returns_inv in H as [H _]. by apply write_sheets_all.
Qed.

Lemma export_writes_one_sheet_per_client_witness :
  exists sheets,
    export_summary_to_excel_sell exact_sum [("C1", [expected_row; expected_row])]
    = Ok sheets
    /\ length sheets = 1%nat.
Proof.
  assert (H : exists sheets,
    export_summary_to_excel_sell exact_sum [("C1", [expected_row; expected_row])]
    = Ok sheets) by (vm_compute; eexists; reflexivity).
  destruct H as [sheets H]. exists sheets. split; [exact H |].
  apply (export_writes_one_sheet_per_client exact_sum _ sheets H).
Defined.

(** *** Fills *)

Lemma lookup_worksheet_record (df : DataFrame) (k : nat) :
  worksheet_row df (S (S k))
  = (fun r => map (fun c => cell c r) (columns df)) <$> records df !! k.
Proof. unfold worksheet_row, worksheet_rows. cbn. apply list_lookup_fmap. Qed.

(** X10. The second formatting loop fills worksheet row [len(df)].  With the
    header in row 1 that row holds the last instrument row of the client; the
    TOTAL row is one row further down and gets no fill. *)
Theorem totals_fill_lands_on_last_instrument_row series_sum
    (rows : list SummaryRow) (r : SummaryRow) (df : DataFrame) :
  with_totals series_sum (rows ++ [r]) = Ok df ->
  row_fill df 1 = Some "CCCCCC"%string
  /\ row_fill df (length (records df)) = Some "E6E6E6"%string
  /\ worksheet_row df (length (records df))
     = Some (map (fun c => cell c (row_dict r)) desired_columns)
  /\ row_fill df (S (length (records df))) = None
  /\ exists total,
       worksheet_row df (S (length (records df)))
       = Some (map (fun c => cell c total) desired_columns)
       /\ cell "Instrument" total = VStr "TOTAL".
Proof.
  intros H. destruct (with_totals_shape _ _ _ H) as (_ & Hcols & total & Hrec & Hlab & _).
  assert (Hlen : length (records df) = S (S (length rows))).
  { rewrite Hrec, length_app, length_map, length_app. cbn. lia. }
  split; [unfold row_fill; by rewrite Hlen |].
  split; [unfold row_fill; by rewrite Nat.eqb_refl |].
  split.
  { rewrite Hlen, lookup_worksheet_record, Hrec, Hcols, map_app.
    rewrite <- app_assoc. rewrite lookup_app_r by (rewrite length_map; lia).
    rewrite length_map, Nat.sub_diag. reflexivity. }
  split.
  { unfold row_fill. rewrite Hlen.
    replace (S (S (S (length rows))) =? S (S (length rows)))%nat with false
      by (symmetry; apply Nat.eqb_neq; lia).
    reflexivity. }
  exists total. split; [| exact Hlab].
  rewrite Hlen, lookup_worksheet_record, Hrec, Hcols.
  rewrite lookup_app_r by (rewrite length_map, length_app; cbn; lia).
  rewrite length_map, length_app. cbn [length].
  replace (S (length rows) - (length rows + 1))%nat with 0%nat by lia.
  reflexivity.
Qed.

Lemma totals_fill_lands_on_last_instrument_row_witness :
  exists df,
    with_totals exact_sum ([expected_row] ++ [expected_row]) = Ok df
    /\ row_fill df (S (length (records df))) = None.
Proof.
  assert (H : exists df, with_totals exact_sum ([expected_row] ++ [expected_row]) = Ok df)
    by (vm_compute; eexists; reflexivity).
  destruct H as [df H]. exists df. split; [exact H |].
  apply (totals_fill_lands_on_last_instrument_row exact_sum _ _ df H).
Defined.

(** *** Column widths *)

Lemma max_length_from (rendered : list string) (m0 : nat) :
  let m := fold_left (fun m s => if (m <? String.length s)%nat then String.length s else m)
             rendered m0 in
  (m0 <= m)%nat
  /\ (forall s, s ∈ rendered -> String.length s <= m)%nat
  /\ (m = m0 \/ exists s, s ∈ rendered /\ m = String.length s).
Proof.
  revert m0. induction rendered as [| s rendered IH]; intros m0; cbv zeta; cbn [fold_left].
  - split; [lia |]. split; [| by left]. intros s Hs. by apply elem_of_nil in Hs.
  - destruct (IH (if (m0 <? String.length s)%nat then String.length s else m0))
      as (Hge & Hall & Hmax).
    destruct (Nat.ltb_spec m0 (String.length s)); cbv beta iota zeta in *.
    + split; [lia |]. split.
      * intros s' Hs'. apply elem_of_cons in Hs' as [-> | Hs']; [lia | by apply Hall].
      * right. destruct Hmax as [-> | (s' & Hs' & ->)].
        -- exists s. split; [by left | reflexivity].
        -- exists s'. split; [by right | reflexivity].
    + split; [lia |]. split.
      * intros s' Hs'. apply elem_of_cons in Hs' as [-> | Hs']; [lia | by apply Hall].
      * destruct Hmax as [-> | (s' & Hs' & ->)]; [by left |].
        right. exists s'. split; [by right | reflexivity].
Qed.

(** X11. The width given to a column is two more than the length of its longest
    rendered cell: no cell is longer than the width minus two, some cell of a
    non-empty column has exactly that length, and the width is 2 when every
    cell renders as the empty text. *)
Theorem column_width_is_longest_cell_plus_two (rendered : list string) :
  (forall s, s ∈ rendered -> String.length s + 2 <= adjusted_width rendered)%nat
  /\ (rendered <> [] ->
      exists s, s ∈ rendered /\ adjusted_width rendered = (String.length s + 2)%nat)
  /\ ((forall s, s ∈ rendered -> s = ""%string) -> adjusted_width rendered = 2%nat).
Proof.
  unfold adjusted_width, max_length.
  destruct (max_length_from rendered 0) as (_ & Hall & Hmax). cbv zeta in *.
  split; [intros s Hs; specialize (Hall s Hs); lia |]. split.
  - intros Hne. destruct Hmax as [E | (s & Hs & E)].
    + destruct rendered as [| s rendered]; [done |]. exists s. split; [by left |].
      specialize (Hall s (list_elem_of_here _ _)). lia.
    + exists s. split; [exact Hs | lia].
  - intros Hempty. destruct Hmax as [E | (s & Hs & E)]; [by rewrite E |].
    rewrite E, (Hempty s Hs). reflexivity.
Qed.


(** *** Answers of the expected shape *)

Lemma is_dict_inv (v : pyval) : is_dict v = true -> exists d, v = VDict d.
Proof. destruct v; try discriminate. eauto. Qed.

Lemma feed_without_success_tag client (d : pydict) :
  eq_str (field_or VNone "type" d) "success" = false ->
  process_positions client (VDict d) = ([], Ok ∅)
  /\ process_holdings client (VDict d) = ([], Ok ∅)
  /\ forall co, process_orders client co (VDict d) = ([], Ok ∅).
Proof.
  intros H. split; [| split; [| intros co]];
    unfold process_positions, process_holdings, process_orders, get_none;
    rewrite get_default_dict, bind_lift_ok; fold (field_or VNone "type" d);
    rewrite H; reflexivity.
Qed.

Lemma process_orders_shaped client co v :
  orders_shaped v = true -> exists log m, process_orders client co v = (log, Ok m).
Proof.
  destruct v as [| | | | | d]; try discriminate. cbn [orders_shaped].
  destruct (eq_str (field_or VNone "type" d) "success") eqn:Hty.
  - intros Hres.
    assert (Hl : exists l, get_default (VDict d) "result" (VList []) = Ok (VList l)).
    { rewrite get_default_dict.
      destruct (lookup_item (KStr "result") d) as [[| | | | l |] |];
        try discriminate; eauto. }
    destruct Hl as [l Hl].
    destruct (for_each_total (order_step client co) l
                (fun a x _ => order_step_returns client co a x) ∅) as (log & m & E).
    exists log, m. unfold process_orders, get_none.
    rewrite get_default_dict, bind_lift_ok. fold (field_or VNone "type" d).
    rewrite Hty, Hl, bind_lift_ok. cbn [iter]. by rewrite bind_lift_ok.
  - intros _. destruct (feed_without_success_tag client d Hty) as (_ & _ & H).
    rewrite H. eauto.
Qed.

Lemma process_positions_shaped client v :
  positions_shaped v = true -> exists log m, process_positions client v = (log, Ok m).
Proof.
  destruct v as [| | | | | d]; try discriminate. cbn [positions_shaped].
  destruct (eq_str (field_or VNone "type" d) "success") eqn:Hty.
  - destruct (lookup_item (KStr "result") d) as [[| | | | | r] |] eqn:Hres;
      try discriminate.
    unfold process_positions, get_none.
    rewrite get_default_dict, bind_lift_ok. fold (field_or VNone "type" d).
    rewrite Hty. unfold subscript. rewrite Hres, bind_lift_ok, get_default_dict.
    destruct (lookup_item (KStr "positionList") r) as [[| | | | l |] |];
      try discriminate; cbn [from_option id]; rewrite bind_lift_ok; cbn [iter];
      rewrite bind_lift_ok; intros Hall.
    + apply for_each_total. intros a x Hx.
      rewrite forallb_forall in Hall. apply list_elem_of_In in Hx.
      destruct (is_dict_inv x (Hall x Hx)) as [dx ->]. apply position_step_returns.
    + by exists [], ∅.
  - intros _. destruct (feed_without_success_tag client d Hty) as (-> & _). eauto.
Qed.

Lemma process_holdings_shaped client v :
  holdings_shaped v = true -> exists log m, process_holdings client v = (log, Ok m).
Proof.
  destruct v as [| | | | | d]; try discriminate. cbn [holdings_shaped].
  destruct (eq_str (field_or VNone "type" d) "success") eqn:Hty.
  - destruct (lookup_item (KStr "result") d) as [[| | | | | r] |] eqn:Hres;
      try discriminate.
    destruct (lookup_item (KStr "RMSHoldings") r) as [[| | | | | rms] |] eqn:Hrms;
      try discriminate.
    destruct (lookup_item (KStr "Holdings") rms) as [[| | | | | hs] |] eqn:Hhs;
      try discriminate.
    intros Hall. unfold process_holdings, get_none.
    rewrite get_default_dict, bind_lift_ok. fold (field_or VNone "type" d).
    rewrite Hty. unfold subscript. rewrite Hres, bind_lift_ok, Hrms, bind_lift_ok, Hhs.
    rewrite bind_lift_ok. cbn [items]. rewrite bind_lift_ok.
    apply for_each_total. intros a [isin x] Hx.
    rewrite forallb_forall in Hall. apply list_elem_of_In in Hx.
    destruct (is_dict_inv x (Hall _ Hx)) as [dx ->]. apply holding_step_returns.
  - intros _. destruct (feed_without_success_tag client d Hty) as (_ & -> & _). eauto.
Qed.

Lemma summarise_client_shaped co sd client params ob pos hold :
  params_shaped params = true -> orders_shaped ob = true ->
  positions_shaped pos = true -> holdings_shaped hold = true ->
  exists log rows, summarise_client co sd client params ob pos hold = (log, Ok rows).
Proof.
  intros Hpar Hob Hpos Hhold. unfold summarise_client.
  destruct (process_positions_shaped client pos Hpos) as (l1 & lp & ->).
  destruct (process_holdings_shaped client hold Hhold) as (l2 & hs & ->).
  destruct (process_orders_shaped client co ob Hob) as (l3 & io & ->).
  destruct params as [| | | | | p]; try discriminate. cbn [params_shaped] in Hpar.
  assert (Hpairs : exists pairs,
    get_default (VDict p) "total_quantity_to_sell" (VDict []) = Ok (VDict pairs)).
  { rewrite get_default_dict.
    destruct (lookup_item (KStr "total_quantity_to_sell") p) as [[| | | | | pairs] |];
      try discriminate; eauto. }
  destruct Hpairs as [pairs Hpairs].
  destruct (rows_of_pairs client sd lp hs io pairs []) as [l4 E].
  exists (l1 ++ l2 ++ l3 ++ l4), (omap (fun p => ok_row (build_row sd lp hs io p.1 p.2)) pairs).
  unfold bind at 1. unfold bind at 1. unfold bind at 1.
  rewrite Hpairs, bind_lift_ok. cbn [items]. rewrite bind_lift_ok, E. reflexivity.
Qed.

(** X12. Answers of the expected shape never make the aggregation raise, whatever
    their field values: when every configured client has a record as
    parameters (with a mapping of targets, or none) and, where its handle
    answers, three answers that are records either not tagged 'success' or
    holding the nested structure with records as entries, the run returns a
    summary. *)
Theorem shaped_answers_never_raise (client_details : list (string * pyval))
    co sd (apis : gmap string api) :
  forallb (client_shaped apis) client_details = true ->
  exists log out, generate_summary_data_sell client_details co sd apis = (log, Ok out).
Proof.
  intros Hall. unfold generate_summary_data_sell. apply for_each_total.
  intros acc [c params] Hin. rewrite forallb_forall in Hall.
  apply list_elem_of_In in Hin. specialize (Hall _ Hin).
  unfold client_shaped, responses in Hall. cbn [fst snd] in Hall.
  apply andb_true_iff in Hall as [Hpar Hresp]. unfold client_step.
  destruct (apis !! c) as [a |]; [| by eauto].
  destruct (fetch a c) as [msg | [[ob pos] hold]]; [by eauto |].
  apply andb_true_iff in Hresp as [Hresp Hhold].
  apply andb_true_iff in Hresp as [Hob Hpos].
  destruct (summarise_client_shaped co sd c params ob pos hold Hpar Hob Hpos Hhold)
    as (log & rows & ->).
  cbn. eauto.
Qed.

Lemma shaped_answers_never_raise_witness :
  exists log out,
    generate_summary_data_sell
      (("C0", targets []) :: ("C2", targets [(KStr "abc", VNone)]) :: config)
      cutoff metadata
      {[ "C1" := text_quantity_api; "C2" := failing_api; "C0" := good_api ]}
    = (log, Ok out).
Proof.
  apply shaped_answers_never_raise. vm_compute. reflexivity.
Defined.


(** *** The per-client output mapping *)

Lemma dict_set_fresh {V} (k : string) (v : V) (d : list (string * V)) :
  k ∉ map fst d -> dict_set k v d = d ++ [(k, v)].
Proof.
  induction d as [| [k' v'] d IH]; [reflexivity |]. cbn [map fst dict_set]. intros H.
  destruct (String.eqb_spec k k') as [-> | Hne].
  - exfalso. apply H. by left.
  - rewrite IH; [reflexivity |]. intros Hin. apply H. by right.
Qed.

Lemma NoDup_drop_middle {A} (l : list A) (x : A) (k : list A) :
  NoDup (l ++ x :: k) -> NoDup (l ++ k).
Proof.
  rewrite !NoDup_app. intros (Hl & Hdisj & Hk). split; [exact Hl |]. split.
  - intros y Hy Hin. apply (Hdisj y Hy). by right.
  - by apply NoDup_cons in Hk as [_ Hk].
Qed.

Lemma NoDup_list_filter {A} (f : A -> bool) (l : list A) :
  NoDup l -> NoDup (List.filter f l).
Proof.
  induction l as [| x l IH]; [done |]. intros H. apply NoDup_cons in H as [Hx Hl].
  cbn [List.filter]. destruct (f x); [| by apply IH].
  apply NoDup_cons. split; [| by apply IH].
  intros Hin. apply Hx. apply list_elem_of_In in Hin. apply filter_In in Hin as [Hin _].
  by apply list_elem_of_In.
Qed.

Lemma client_step_reachable co sd apis acc c params log out :
  client_step co sd apis acc (c, params) = (log, Ok out) ->
  if reachable apis c then exists rows, out = dict_set c rows acc else out = acc.
Proof.
  unfold client_step, reachable, responses. destruct (apis !! c) as [a |].
  - destruct (fetch a c) as [msg | [[ob pos] hold]].
    + by intros [= _ <-].
    + intros H. apply bind_ok_inv in H as (l1 & rows & l2 & _ & [= _ <-] & _).
      by exists rows.
  - by intros [= _ <-].
Qed.

Lemma generated_keys_in_order co sd apis (clients : list (string * pyval)) :
  forall acc log out,
    NoDup (map fst acc ++ map fst clients) ->
    for_each (client_step co sd apis) acc clients = (log, Ok out) ->
    map fst out = map fst acc ++ List.filter (reachable apis) (map fst clients).
Proof.
  induction clients as [| [c params] clients IH]; intros acc log out Hnd.
  - intros [= _ <-]. cbn. by rewrite app_nil_r.
  - cbn [for_each]. intros H.
    apply bind_ok_inv in H as (l1 & acc1 & l2 & H1 & H2 & _).
    apply client_step_reachable in H1. cbn [map fst List.filter] in *.
    assert (Hc : c ∉ map fst acc).
    { intros Hin. apply NoDup_app in Hnd as (_ & Hdisj & _).
      apply (Hdisj c Hin). by left. }
    destruct (reachable apis c).
    + destruct H1 as [rows ->]. rewrite (dict_set_fresh c rows acc Hc) in H2.
      assert (Hnd' : NoDup (map fst (acc ++ [(c, rows)]) ++ map fst clients)).
      { rewrite map_app. cbn. by rewrite <- app_assoc. }
      rewrite (IH _ _ _ Hnd' H2). rewrite map_app. cbn. by rewrite <- app_assoc.
    + subst acc1. apply (IH _ _ _ (NoDup_drop_middle _ _ _ Hnd) H2).
Qed.

(** X13. The summary a run returns has exactly one entry for each configured
    client whose API handle exists and answers all three calls, in the order
    of the configuration, and no other entry. *)
Theorem summary_lists_reachable_clients_in_order
    (client_details : list (string * pyval)) co sd (apis : gmap string api) log out :
  NoDup (map fst client_details) ->
  generate_summary_data_sell client_details co sd apis = (log, Ok out) ->
  map fst out = List.filter (reachable apis) (map fst client_details)
  /\ NoDup (map fst out).
Proof.
  intros Hnd H.
  assert (E : map fst out = List.filter (reachable apis) (map fst client_details))
    by exact (generated_keys_in_order co sd apis client_details [] log out Hnd H).
  split; [exact E |]. rewrite E. by apply NoDup_list_filter.
Qed.

Lemma summary_lists_reachable_clients_in_order_witness :
  exists log out,
    generate_summary_data_sell
      (("C0", targets []) :: ("C2", targets []) :: ("C7", targets []) :: config)
      cutoff metadata {[ "C1" := good_api; "C2" := failing_api; "C0" := good_api ]}
    = (log, Ok out)
    /\ map fst out = ["C0"; "C1"]%string.
Proof.
  assert (H : exists log out,
    generate_summary_data_sell
      (("C0", targets []) :: ("C2", targets []) :: ("C7", targets []) :: config)
      cutoff metadata {[ "C1" := good_api; "C2" := failing_api; "C0" := good_api ]}
    = (log, Ok out)) by (vm_compute; do 2 eexists; reflexivity).
  destruct H as (log & out & H). exists log, out. split; [exact H |].
  assert (Hnd : NoDup (map fst
    (("C0", targets []) :: ("C2", targets []) :: ("C7", targets []) :: config)))
    by (apply (bool_decide_unpack _); vm_compute; exact I).
  destruct (summary_lists_reachable_clients_in_order _ _ _ _ _ _ Hnd H) as [E _].
  rewrite E. vm_compute. reflexivity.
Defined.


(** *** An error in one client's aggregation *)

(** X14. The aggregation of a client runs outside any handler: when it raises for
    one client, the run raises the same exception there; the clients already
    processed leave only their printed lines, and the clients after it are
    not looked at. *)
Theorem aggregation_error_ends_the_run co sd (apis : gmap string api)
    (before after : list (string * pyval)) c params a ob pos hold lc e l1 out1 :
  apis !! c = Some a ->
  fetch a c = inr (ob, pos, hold) ->
  summarise_client co sd c params ob pos hold = (lc, Raise e) ->
  for_each (client_step co sd apis) [] before = (l1, Ok out1) ->
  generate_summary_data_sell (before ++ (c, params) :: after) co sd apis
  = (l1 ++ lc, Raise e).
Proof.
  intros Ha Hf Hs Hb. unfold generate_summary_data_sell.
  rewrite for_each_app, Hb. unfold bind at 1. cbn [for_each].
  unfold client_step at 1. rewrite Ha, Hf, Hs. reflexivity.
Qed.

Lemma aggregation_error_ends_the_run_witness :
  exists log,
    generate_summary_data_sell
      (config ++ ("C0", targets [(KInt 100, VInt 50)]) :: [("C2", targets [])])
      cutoff metadata {[ "C0" := malformed_holdings_api; "C1" := good_api ]}
    = (log, Raise (KeyError (KStr "RMSHoldings"))).
Proof.
  assert (H : exists l1 out1,
    for_each (client_step cutoff metadata
                {[ "C0" := malformed_holdings_api; "C1" := good_api ]}) [] config
    = (l1, Ok out1)) by (vm_compute; do 2 eexists; reflexivity).
  destruct H as (l1 & out1 & H). exists (l1 ++ []).
  apply (aggregation_error_ends_the_run cutoff metadata _ config [("C2", targets [])]
           "C0" _ malformed_holdings_api order_book failure (success (VDict []))
           [] _ l1 out1);
    [vm_compute; reflexivity | reflexivity | vm_compute; reflexivity | exact H].
Defined.

(** *** Every row of the output *)

Lemma dict_set_elem {V} (k : string) (v : V) (d : list (string * V)) (x : string * V) :
  x ∈ dict_set k v d -> x = (k, v) \/ x ∈ d.
Proof.
  induction d as [| [k' v'] d IH]; cbn [dict_set].
  - intros H. apply list_elem_of_singleton in H. by left.
  - destruct (String.eqb k k'); intros H.
    + apply elem_of_cons in H as [-> | H]; [by left | right; by right].
    + apply elem_of_cons in H as [-> | H]; [right; by left |].
      destruct (IH H) as [-> | H']; [by left | right; by right].
Qed.

Lemma summarise_client_inv co sd client params ob pos hold log rows :
  summarise_client co sd client params ob pos hold = (log, Ok rows) ->
  exists pairs lp hs io,
    get_default params "total_quantity_to_sell" (VDict []) = Ok (VDict pairs)
    /\ rows = omap (fun p => ok_row (build_row sd lp hs io (fst p) (snd p))) pairs.
Proof.
  unfold summarise_client. intros H.
  apply bind_ok_inv in H as (l1 & lp & l1' & _ & H & _).
  apply bind_ok_inv in H as (l2 & hs & l2' & _ & H & _).
  apply bind_ok_inv in H as (l3 & io & l3' & _ & H & _).
  apply bind_ok_inv in H as (l4 & tq & l4' & Htq & H & _).
  apply bind_ok_inv in H as (l5 & pairs & l5' & Hit & H & _).
  apply lift_ok_inv in Htq, Hit.
  destruct tq as [| | | | | d]; try discriminate. injection Hit as ->.
  destruct (rows_of_pairs client sd lp hs io pairs []) as [l6 E].
  rewrite E in H. injection H as _ <-. by exists pairs, lp, hs, io.
Qed.

Lemma generated_entries co sd apis (clients : list (string * pyval)) :
  forall acc log out c rows,
    for_each (client_step co sd apis) acc clients = (log, Ok out) ->
    (c, rows) ∈ out ->
    (c, rows) ∈ acc
    \/ exists params ob pos hold lg,
         (c, params) ∈ clients
         /\ summarise_client co sd c params ob pos hold = (lg, Ok rows).
Proof.
  induction clients as [| [c0 params0] clients IH]; intros acc log out c rows.
  - intros [= _ <-]. by left.
  - cbn [for_each]. intros H Hin.
    apply bind_ok_inv in H as (l1 & acc1 & l2 & H1 & H2 & _).
    destruct (IH _ _ _ _ _ H2 Hin) as [Hacc1 | (params & ob & pos & hold & lg & Hc & Hs)].
    + unfold client_step in H1. destruct (apis !! c0) as [a |].
      * destruct (fetch a c0) as [msg | [[ob pos] hold]].
        -- injection H1 as _ <-. by left.
        -- apply bind_ok_inv in H1 as (lg & rows0 & l3 & Hs & [= _ <-] & _).
           apply dict_set_elem in Hacc1 as [[= -> ->] | Hacc]; [| by left].
           right. exists params0, ob, pos, hold, lg. split; [by left | exact Hs].
      * injection H1 as _ <-. by left.
    + right. exists params, ob, pos, hold, lg. split; [by right | exact Hs].
Qed.

Lemma build_row_inv sd lp hs io ex_id target r :
  build_row sd lp hs io ex_id target = Ok r ->
  exists i,
    int_key ex_id = Ok i
    /\ Target r = target
    /\ Executed r = executed (tally_at io i)
    /\ Open r = open (tally_at io i)
    /\ Rejected r = rejected (tally_at io i)
    /\ Holding r = holding_qty_of hs i
    /\ sub_int (Holding r) (Executed r) = Ok (Remaining r)
    /\ (Instrument r = fallback_name ex_id
        \/ exists record,
             lookup_item (KInt i) sd = Some (VDict record)
             /\ lookup_item (KStr "name") record = Some (Instrument r)).
Proof.
  unfold build_row. destruct (int_key ex_id) as [i | e]; [| discriminate]. cbn [obind].
  fold (fallback_name ex_id). fold (holding_qty_of hs i). fold (tally_at io i).
  destruct (get_default _ _ _) as [name | e] eqn:Hn; [| discriminate]. cbn [obind].
  destruct (sub_int _ _) as [rem | e] eqn:Hr; [| discriminate]. cbn [obind].
  intros [= <-]. exists i. cbn. repeat (split; [done |]).
  destruct (lookup_item (KInt i) sd) as [[| | | | | record] |] eqn:Hm; try discriminate.
  - cbn [from_option id] in Hn. rewrite get_default_dict in Hn.
    destruct (lookup_item (KStr "name") record) as [v |] eqn:Hv;
      cbn [from_option id] in Hn; injection Hn as <-; [| by left].
    right. by exists record.
  - cbn in Hn. injection Hn as <-. by left.
Qed.

(** X15. Every row of a returned summary belongs to a configured client and to
    one pair of that client's targets whose key coerces to an integer: its
    Target is the pair's quantity, its name is the fallback label or the
    metadata name of that instrument, and its Remaining is its Holding minus
    its Executed. *)
Theorem every_row_comes_from_a_target (client_details : list (string * pyval))
    co sd (apis : gmap string api) log out :
  generate_summary_data_sell client_details co sd apis = (log, Ok out) ->
  forall client rows r,
    (client, rows) ∈ out -> r ∈ rows ->
    exists params pairs ex_id i,
      (client, params) ∈ client_details
      /\ get_default params "total_quantity_to_sell" (VDict []) = Ok (VDict pairs)
      /\ (ex_id, Target r) ∈ pairs
      /\ int_key ex_id = Ok i
      /\ sub_int (Holding r) (Executed r) = Ok (Remaining r)
      /\ (Instrument r = VStr ("ID:" +:+ str_key ex_id)
          \/ exists record,
               lookup_item (KInt i) sd = Some (VDict record)
               /\ lookup_item (KStr "name") record = Some (Instrument r)).
Proof.
  intros H client rows r Hin Hr.
  destruct (generated_entries _ _ _ _ _ _ _ _ _ H Hin)
    as [Hnil | (params & ob & pos & hold & lg & Hc & Hs)];
    [by apply elem_of_nil in Hnil |].
  apply summarise_client_inv in Hs as (pairs & lp & hs & io & Hp & ->).
  apply list_elem_of_omap in Hr as ([ex_id target] & Hpair & Hok). cbn [fst snd] in Hok.
  destruct (build_row sd lp hs io ex_id target) as [r' | e] eqn:Eb; [| discriminate].
  injection Hok as ->.
  destruct (build_row_inv _ _ _ _ _ _ _ Eb) as (i & Hi & Ht & _ & _ & _ & _ & Hrem & Hname).
  exists params, pairs, ex_id, i. rewrite Ht. done.
Qed.

Lemma every_row_comes_from_a_target_witness :
  exists ex_id i,
    int_key ex_id = Ok i
    /\ sub_int (Holding expected_row) (Executed expected_row) = Ok (Remaining expected_row).
Proof.
  assert (H : generate_summary_data_sell config cutoff [] {[ "C1" := good_api ]}
              = ([], Ok [("C1", [expected_row])])) by (vm_compute; reflexivity).
  destruct (every_row_comes_from_a_target _ _ _ _ _ _ H "C1" [expected_row] expected_row)
    as (params & pairs & ex_id & i & _ & _ & _ & Hi & Hrem & _);
    [by left | by left |].
  exists ex_id, i. split; [exact Hi | exact Hrem].
Defined.

(** *** What the timestamp parser returns *)

Lemma try_formats_valid ts (fmts : list string) t :
  try_formats ts fmts = Ok (Some t) -> is_str ts = true /\ valid t = true.
Proof.
  induction fmts as [| fmt fmts IH]; [discriminate |]. cbn [try_formats].
  destruct ts as [| | | s | |]; try discriminate. cbn [py_strptime].
  destruct (strptime s fmt) as [d | e] eqn:E.
  - intros [= <-]. split; [reflexivity |]. unfold strptime in E.
    destruct (re_match (pattern fmt) s) as [[caps rest] |]; [| discriminate].
    destruct rest; [| discriminate].
    destruct (valid (of_captures caps)) eqn:Hv; [| discriminate].
    by injection E as <-.
  - destruct e; try discriminate. exact IH.
Qed.

(** X16. A point in time returned by the timestamp parser is always a real date
    and time of day: year 1 to 9999, a day that exists in its month, hour up
    to 23, minute and second up to 59 (a seconds field of 60 or 61 matches
    the pattern but is not returned), microsecond below a million; and it is
    returned without any printed line, for text input only. *)
Theorem parsed_time_is_valid ts log t :
  parse_order_time ts = (log, Ok (Some t)) ->
  log = [] /\ is_str ts = true
  /\ (1 <= year t <= 9999)%Z /\ (1 <= month t <= 12)%Z
  /\ (1 <= day t <= days_in_month (year t) (month t))%Z
  /\ (0 <= hour t <= 23)%Z /\ (0 <= minute t <= 59)%Z /\ (0 <= second t <= 59)%Z
  /\ (0 <= microsecond t <= 999999)%Z.
Proof.
  unfold parse_order_time.
  destruct (try_formats ts formats) as [[t' |] | e] eqn:E; try discriminate.
  intros [= <- ->]. apply try_formats_valid in E as [Hs Hv].
  split; [reflexivity |]. split; [exact Hs |].
  unfold valid, between in Hv. repeat (apply andb_true_iff in Hv as [Hv ?]). lia.
Qed.

Lemma parsed_time_is_valid_witness :
  (0 <= second (mk_datetime 2024 2 29 23 59 59 120000) <= 59)%Z.
Proof.
  assert (H : parse_order_time (VStr "2024-02-29 23:59:59.12")
              = ([], Ok (Some (mk_datetime 2024 2 29 23 59 59 120000))))
    by (vm_compute; reflexivity).
  apply (parsed_time_is_valid _ _ _ H).
Defined.

Lemma non_success_is_empty_feed_witness :
  process_positions "C1" failure = ([], Ok ∅)
  /\ process_holdings "C1" failure = ([], Ok ∅)
  /\ process_orders "C1" cutoff failure = ([], Ok ∅).
Proof.
  apply (non_success_is_empty_feed "C1" cutoff
           [(KStr "type", VStr "error"); (KStr "description", VStr "session expired")]).
  reflexivity.
Defined.


(** *** Canonical timestamps *)

Lemma below_cases (P : Z -> Prop) (hi : nat) :
  (forall k : nat, (k <= hi)%nat -> P (Z.of_nat k)) ->
  forall n, (0 <= n <= Z.of_nat hi)%Z -> P n.
Proof. intros H n Hn. rewrite <- (Z2Nat.id n) by lia. apply H. lia. Qed.

Lemma digit_char_facts (q : Z) :
  (0 <= q <= 9)%Z ->
  digit (digit_char q) = true /\ is_digit (digit_char q) = true
  /\ digit_val (digit_char q) = q /\ is_space (digit_char q) = false
  /\ letter "." (digit_char q) = false.
Proof.
  revert q. apply (below_cases _ 9). intros k Hk.
  do 10 (destruct k as [| k]; [vm_compute; repeat split; reflexivity |]). lia.
Qed.

Lemma digit_char_not_blank (q : Z) :
  (0 <= q <= 9)%Z -> is_int_space (digit_char q) = false.
Proof.
  revert q. refine (below_cases _ 9%nat _). intros k Hk.
  do 10 (destruct k as [| k]; [vm_compute; reflexivity |]). lia.
Qed.

Ltac group_case :=
  let Hk := fresh "Hk" in
  intros ? ? ? ? ? Hk; first [lia | vm_compute; rewrite Hk; reflexivity].

Ltac group_cases hi :=
  refine (below_cases _ hi _); intros j Hj;
  do 60 (try (destruct j as [| j]; [group_case |]));
  lia.

Lemma group_month n :
  (0 <= n <= Z.of_nat 12)%Z ->
  forall rest k caps r, (1 <= n)%Z -> k rest = Some (caps, r) ->
  match_token (directive "m")
    (String (digit_char (n / 10)) (String (digit_char (n mod 10)) rest)) k
  = Some (("m"%char, two n) :: caps, r).
Proof. revert n. group_cases 12%nat. Qed.

Lemma group_day n :
  (0 <= n <= Z.of_nat 31)%Z ->
  forall rest k caps r, (1 <= n)%Z -> k rest = Some (caps, r) ->
  match_token (directive "d")
    (String (digit_char (n / 10)) (String (digit_char (n mod 10)) rest)) k
  = Some (("d"%char, two n) :: caps, r).
Proof. revert n. group_cases 31%nat. Qed.

Lemma group_hour n :
  (0 <= n <= Z.of_nat 23)%Z ->
  forall rest k caps r, (0 <= n)%Z -> k rest = Some (caps, r) ->
  match_token (directive "H")
    (String (digit_char (n / 10)) (String (digit_char (n mod 10)) rest)) k
  = Some (("H"%char, two n) :: caps, r).
Proof. revert n. group_cases 23%nat. Qed.

Lemma group_minute n :
  (0 <= n <= Z.of_nat 59)%Z ->
  forall rest k caps r, (0 <= n)%Z -> k rest = Some (caps, r) ->
  match_token (directive "M")
    (String (digit_char (n / 10)) (String (digit_char (n mod 10)) rest)) k
  = Some (("M"%char, two n) :: caps, r).
Proof. revert n. group_cases 59%nat. Qed.

Lemma group_second n :
  (0 <= n <= Z.of_nat 59)%Z ->
  forall rest k caps r, (0 <= n)%Z -> k rest = Some (caps, r) ->
  match_token (directive "S")
    (String (digit_char (n / 10)) (String (digit_char (n mod 10)) rest)) k
  = Some (("S"%char, two n) :: caps, r).
Proof. revert n. group_cases 59%nat. Qed.

Lemma int_of_two n : (0 <= n <= Z.of_nat 59)%Z -> int_of_string (two n) = Some n.
Proof.
  revert n. apply (below_cases _ 59). intros j Hj.
  do 60 (destruct j as [| j]; [vm_compute; reflexivity |]). lia.
Qed.

Lemma group_year (a b c d : ascii) rest k caps r :
  digit a = true -> digit b = true -> digit c = true -> digit d = true ->
  k rest = Some (caps, r) ->
  match_token (directive "Y") (String a (String b (String c (String d rest)))) k
  = Some (("Y"%char, String a (String b (String c (String d EmptyString)))) :: caps, r).
Proof.
  intros Ha Hb Hc Hd Hk.
  change (directive "Y") with (TGroup "Y" [[digit; digit; digit; digit]]).
  cbn [match_token match_alts match_alt]. rewrite Ha, Hb, Hc, Hd, Hk. reflexivity.
Qed.

Lemma year_digits y :
  (0 <= y <= 9999)%Z ->
  (0 <= y / 1000 <= 9)%Z /\ (0 <= y / 100 mod 10 <= 9)%Z
  /\ (0 <= y / 10 mod 10 <= 9)%Z /\ (0 <= y mod 10 <= 9)%Z
  /\ (10 * (10 * (10 * (10 * 0 + y / 1000) + y / 100 mod 10) + y / 10 mod 10)
      + y mod 10 = y)%Z.
Proof. intros H. repeat split; Z.div_mod_to_equations; lia. Qed.

Lemma int_of_four y : (0 <= y <= 9999)%Z -> int_of_string (four y) = Some y.
Proof.
  intros Hy. destruct (year_digits y Hy) as (H1 & H2 & H3 & H4 & E).
  destruct (digit_char_facts _ H1) as (_ & Da & Va & _ & _).
  pose proof (digit_char_not_blank _ H1) as Sa.
  pose proof (digit_char_not_blank _ H4) as Sd.
  destruct (digit_char_facts _ H2) as (_ & Db & Vb & _ & _).
  destruct (digit_char_facts _ H3) as (_ & Dc & Vc & _ & _).
  destruct (digit_char_facts _ H4) as (_ & Dd & Vd & _ & _).
  unfold int_of_string, strip, four. cbn [rstrip]. rewrite Sd. cbn [lstrip].
  rewrite Sa.
  assert (Hsign : forall q, (0 <= q <= 9)%Z -> forall (s : string),
    match String (digit_char q) s with
    | String "-" r => Z.opp <$> parse_digits r 0 false
    | String "+" r => parse_digits r 0 false
    | t => parse_digits t 0 false
    end = parse_digits (String (digit_char q) s) 0 false).
  { clear. refine (below_cases _ 9%nat _). intros j Hj.
    do 10 (destruct j as [| j]; [intros s; reflexivity |]). lia. }
  rewrite (Hsign _ H1). cbn [parse_digits]. rewrite Da, Db, Dc, Dd, Va, Vb, Vc, Vd.
  by rewrite E.
Qed.

Lemma match_alt_rest (a : list atom) s tok rest c :
  match_alt a s = Some (tok, rest) -> occurs c rest -> occurs c s.
Proof.
  revert s tok. induction a as [| p a IH]; intros s tok.
  - by intros [= _ <-].
  - cbn [match_alt]. destruct s as [| c0 s]; [discriminate |].
    destruct (p c0); [| discriminate].
    destruct (match_alt a s) as [[tok' rest'] |] eqn:E; [| discriminate].
    intros [= _ <-] Hc. right. by apply (IH s tok').
Qed.

Lemma match_alts_rest {R} (alts : list (list atom)) s (k : string -> string -> option R) r :
  match_alts alts s k = Some r ->
  exists tok rest, k tok rest = Some r /\ forall c, occurs c rest -> occurs c s.
Proof.
  induction alts as [| a alts IH]; [discriminate |]. cbn [match_alts].
  destruct (match_alt a s) as [[tok rest] |] eqn:E; [| exact IH].
  destruct (k tok rest) as [r' |] eqn:Hk; [| exact IH].
  intros [= <-]. exists tok, rest. split; [exact Hk |].
  intros c. by apply (match_alt_rest a s tok).
Qed.

Lemma match_some_rest {R} (p : atom) (n : nat) :
  forall s (k : string -> string -> option R) r,
    match_some p n s k = Some r ->
    exists tok rest, k tok rest = Some r /\ forall c, occurs c rest -> occurs c s.
Proof.
  induction n as [| n IH]; intros s k r; [discriminate |]. cbn [match_some].
  destruct s as [| c0 s]; [discriminate |]. destruct (p c0); [| discriminate].
  destruct (match_some p n s (fun tok rest => k (String c0 tok) rest)) as [r' |] eqn:E.
  - intros [= <-]. destruct (IH _ _ _ E) as (tok & rest & Hk & Hsub).
    exists (String c0 tok), rest. split; [exact Hk |]. intros c Hc. right. by apply Hsub.
  - intros Hk. exists (String c0 EmptyString), s. split; [exact Hk |].
    intros c Hc. by right.
Qed.

Lemma re_match_literal (ts : list token) :
  forall s res x,
    re_match ts s = Some res -> In (TLit x) ts ->
    exists c, occurs c s /\ letter x c = true.
Proof.
  induction ts as [| t ts IH]; intros s res x Hm Hin; [destruct Hin |].
  cbn [re_match] in Hm.
  assert (Hrest : exists res' rest,
    re_match ts rest = Some res' /\ (forall c, occurs c rest -> occurs c s)
    /\ forall y, t = TLit y -> exists c, occurs c s /\ letter y c = true).
  { destruct t as [y | | name alts |]; cbn [match_token] in Hm.
    - destruct s as [| c0 s]; [discriminate |].
      destruct (letter y c0) eqn:Hl; [| discriminate].
      exists res, s. split; [exact Hm |]. split; [intros c Hc; by right |].
      intros y' [= <-]. exists c0. split; [by left | exact Hl].
    - apply match_some_rest in Hm as (tok & rest & Hk & Hsub).
      exists res, rest. split; [exact Hk |]. split; [exact Hsub | discriminate].
    - apply match_alts_rest in Hm as (tok & rest & Hk & Hsub).
      destruct (re_match ts rest) as [[caps r] |] eqn:E; [| discriminate].
      exists (caps, r), rest. split; [exact E |]. split; [exact Hsub | discriminate].
    - apply match_some_rest in Hm as (tok & rest & Hk & Hsub).
      destruct (re_match ts rest) as [[caps r] |] eqn:E; [| discriminate].
      exists (caps, r), rest. split; [exact E |]. split; [exact Hsub | discriminate]. }
  destruct Hrest as (res' & rest & Hm' & Hsub & Hhead).
  destruct Hin as [-> | Hin]; [by apply (Hhead x) |].
  destruct (IH rest res' x Hm' Hin) as (c & Hc & Hl). exists c. split; [by apply Hsub | exact Hl].
Qed.

Lemma valid_ranges t :
  valid t = true ->
  (1 <= year t <= 9999)%Z /\ (1 <= month t <= 12)%Z /\ (1 <= day t <= 31)%Z
  /\ (0 <= hour t <= 23)%Z /\ (0 <= minute t <= 59)%Z /\ (0 <= second t <= 59)%Z.
Proof.
  unfold valid, between. intros Hv. repeat (apply andb_true_iff in Hv as [Hv ?]).
  assert (days_in_month (year t) (month t) <= 31)%Z.
  { unfold days_in_month. repeat match goal with |- context [if ?b then _ else _] =>
      destruct b end; lia. }
  lia.
Qed.

Lemma two_digits n :
  (0 <= n <= 59)%Z -> (0 <= n / 10 <= 9)%Z /\ (0 <= n mod 10 <= 9)%Z.
Proof. intros H. split; Z.div_mod_to_equations; lia. Qed.

Lemma iso_text_has_no_point t c :
  valid t = true -> occurs c (iso_text t) -> letter "." c = false.
Proof.
  intros Hv. destruct (valid_ranges t Hv) as (Hy & Hm & Hd & HH & HM & HS).
  destruct (year_digits (year t)) as (Y1 & Y2 & Y3 & Y4 & _); [lia |].
  destruct (two_digits (month t)) as [M1 M2]; [lia |].
  destruct (two_digits (day t)) as [D1 D2]; [lia |].
  destruct (two_digits (hour t)) as [H1 H2]; [lia |].
  destruct (two_digits (minute t)) as [N1 N2]; [lia |].
  destruct (two_digits (second t)) as [S1 S2]; [lia |].
  unfold iso_text, four, two. cbn [String.append occurs].
  intros Hc.
  repeat (destruct Hc as [-> | Hc];
          [first [reflexivity | by apply digit_char_facts] |]).
  destruct Hc.
Qed.

Lemma pattern_with_microseconds :
  pattern "%Y-%m-%d %H:%M:%S.%f"
  = [directive "Y"; TLit "-"; directive "m"; TLit "-"; directive "d"; TSpaces;
     directive "H"; TLit ":"; directive "M"; TLit ":"; directive "S"; TLit "."; TFrac].
Proof. reflexivity. Qed.

Lemma pattern_seconds :
  pattern "%Y-%m-%d %H:%M:%S"
  = [directive "Y"; TLit "-"; directive "m"; TLit "-"; directive "d"; TSpaces;
     directive "H"; TLit ":"; directive "M"; TLit ":"; directive "S"].
Proof. reflexivity. Qed.

Lemma match_spaces_one (a : ascii) rest (k : string -> option (captures * string)) :
  is_space a = false ->
  match_token TSpaces (String " " (String a rest)) k = k (String a rest).
Proof.
  intros Ha. cbn [match_token String.length match_some].
  change (is_space " ") with true. cbv iota. rewrite Ha. reflexivity.
Qed.

Lemma match_literal (x : ascii) rest (k : string -> option (captures * string)) :
  letter x x = true -> match_token (TLit x) (String x rest) k = k rest.
Proof. intros H. cbn [match_token]. by rewrite H. Qed.

Lemma string_app_cons (a : ascii) (s t : string) :
  (String a s +:+ t)%string = String a (s +:+ t)%string.
Proof. reflexivity. Qed.

Lemma string_app_nil (t : string) : (EmptyString +:+ t)%string = t.
Proof. reflexivity. Qed.

Lemma iso_text_matches t :
  valid t = true ->
  re_match (pattern "%Y-%m-%d %H:%M:%S") (iso_text t)
  = Some ([("Y"%char, four (year t)); ("m"%char, two (month t)); ("d"%char, two (day t));
           ("H"%char, two (hour t)); ("M"%char, two (minute t));
           ("S"%char, two (second t))], EmptyString).
Proof.
  intros Hv. destruct (valid_ranges t Hv) as (Hy & Hm & Hd & HH & HM & HS).
  destruct (year_digits (year t)) as (Y1 & Y2 & Y3 & Y4 & _); [lia |].
  destruct (two_digits (hour t)) as [H1 _]; [lia |].
  rewrite pattern_seconds. unfold iso_text, four.
  unfold two at 1 2 3 4 5.
  repeat first [rewrite string_app_cons | rewrite string_app_nil].
  cbn [re_match].
  apply group_year; try (by apply digit_char_facts).
  cbn [re_match]. rewrite match_literal by reflexivity.
  apply group_month; [lia | lia |].
  cbn [re_match]. rewrite match_literal by reflexivity.
  apply group_day; [lia | lia |].
  cbn [re_match]. rewrite match_spaces_one by (by apply digit_char_facts).
  apply group_hour; [lia | lia |].
  cbn [re_match]. rewrite match_literal by reflexivity.
  apply group_minute; [lia | lia |].
  cbn [re_match]. rewrite match_literal by reflexivity.
  apply group_second; [lia | lia |].
  reflexivity.
Qed.

Lemma iso_text_strptime t :
  valid t = true -> microsecond t = 0%Z ->
  strptime (iso_text t) "%Y-%m-%d %H:%M:%S" = Ok t.
Proof.
  intros Hv Hus. destruct (valid_ranges t Hv) as (Hy & Hm & Hd & HH & HM & HS).
  unfold strptime. rewrite (iso_text_matches t Hv).
  assert (E : of_captures
    [("Y"%char, four (year t)); ("m"%char, two (month t)); ("d"%char, two (day t));
     ("H"%char, two (hour t)); ("M"%char, two (minute t)); ("S"%char, two (second t))]
    = t).
  { unfold of_captures, month_of, fraction_of, field.
    change (capture "b" _) with (@None string). change (capture "f" _) with (@None string).
    change (capture "Y" _) with (Some (four (year t))).
    change (capture "m" _) with (Some (two (month t))).
    change (capture "d" _) with (Some (two (day t))).
    change (capture "H" _) with (Some (two (hour t))).
    change (capture "M" _) with (Some (two (minute t))).
    change (capture "S" _) with (Some (two (second t))).
    cbv beta iota. rewrite int_of_four by lia. rewrite !int_of_two by lia.
    destruct t; cbn in *. by subst. }
  rewrite E, Hv. reflexivity.
Qed.

Lemma iso_text_not_with_microseconds t :
  valid t = true -> strptime (iso_text t) "%Y-%m-%d %H:%M:%S.%f" = Raise ValueError.
Proof.
  intros Hv. unfold strptime.
  destruct (re_match (pattern "%Y-%m-%d %H:%M:%S.%f") (iso_text t)) as [res |] eqn:E;
    [| reflexivity].
  exfalso. rewrite pattern_with_microseconds in E.
  destruct (re_match_literal _ _ _ "."%char E) as (c & Hc & Hl).
  - cbn. do 11 right. by left.
  - rewrite (iso_text_has_no_point t c Hv Hc) in Hl. discriminate.
Qed.

(** X17. A date and time of day with whole seconds, written as zero-padded
    YYYY-MM-DD HH:MM:SS, is read back as exactly that point in time, without
    any printed line: the format with microseconds is tried first and does
    not match, the one without does. *)
Theorem canonical_timestamp_round_trip t :
  valid t = true -> microsecond t = 0%Z ->
  parse_order_time (VStr (iso_text t)) = ([], Ok (Some t)).
Proof.
  intros Hv Hus. unfold parse_order_time, formats. cbn [try_formats py_strptime].
  rewrite (iso_text_not_with_microseconds t Hv), (iso_text_strptime t Hv Hus).
  reflexivity.
Qed.

Lemma canonical_timestamp_round_trip_witness :
  parse_order_time (VStr (iso_text (mk_datetime 2024 2 29 9 5 0 0)))
  = ([], Ok (Some (mk_datetime 2024 2 29 9 5 0 0))).
Proof. apply canonical_timestamp_round_trip; reflexivity. Defined.


Lemma column_width_is_longest_cell_plus_two_witness :
  (String.length "ID:100" + 2 <= adjusted_width ["Instrument"; "ID:100"; "TOTAL"])%nat
  /\ exists s, s ∈ ["Instrument"; "ID:100"; "TOTAL"]%string
       /\ adjusted_width ["Instrument"; "ID:100"; "TOTAL"] = (String.length s + 2)%nat.
Proof.
  destruct (column_width_is_longest_cell_plus_two ["Instrument"; "ID:100"; "TOTAL"])
    as (Hall & Hmax & _).
  split.
  - apply Hall. right. left.
  - apply Hmax. discriminate.
Defined.


(** *** Skipped clients and the others *)





(** *** Pairs that are skipped *)

(** X19. A configured pair is skipped, leaving the client's rows as they were
    and printing one line that names the pair and the error, when its key
    does not coerce to an integer (the coercion error), when the metadata
    entry of its instrument is present but not a record (AttributeError), and
    when the holding quantity read for it is null, text, a list or a record
    (TypeError). *)
Theorem unbuildable_pair_logged_and_skipped client sd lp hs io
    (rows : list SummaryRow) ex_id target :
  (forall e, int_key ex_id = Raise e ->
     row_step client sd lp hs io rows (ex_id, target)
     = ([InstrumentError ex_id client e], Ok rows))
  /\ (forall i v, int_key ex_id = Ok i ->
      lookup_item (KInt i) sd = Some v -> is_dict v = false ->
      row_step client sd lp hs io rows (ex_id, target)
      = ([InstrumentError ex_id client AttributeError], Ok rows))
  /\ (forall i, int_key ex_id = Ok i ->
      (lookup_item (KInt i) sd = None
       \/ exists record, lookup_item (KInt i) sd = Some (VDict record)) ->
      not_a_number (holding_qty_of hs i) = true ->
      row_step client sd lp hs io rows (ex_id, target)
      = ([InstrumentError ex_id client TypeError], Ok rows)).
Proof.
  split; [| split].
  - intros e He. unfold row_step, build_row. by rewrite He.
  - intros i v Hi Hv Hd. unfold row_step, build_row. rewrite Hi. cbn [obind]. rewrite Hv.
    destruct v; try discriminate; reflexivity.
  - intros i Hi Hmeta Hq. unfold row_step, build_row. rewrite Hi. cbn [obind].
    assert (exists name, get_default (default (VDict []) (lookup_item (KInt i) sd)) "name"
                           (VStr ("ID:" +:+ str_key ex_id)) = Ok name) as [name ->].
    { destruct Hmeta as [-> | [record ->]]; eexists; reflexivity. }
    cbn [obind]. fold (holding_qty_of hs i).
    destruct (holding_qty_of hs i); try discriminate; reflexivity.
Qed.

Lemma unbuildable_pair_logged_and_skipped_witness :
  row_step "C1" metadata ∅ ∅ ∅ [expected_row] (KStr "INFY", VInt 5)
  = ([InstrumentError (KStr "INFY") "C1" ValueError], Ok [expected_row])
  /\ row_step "C1" [(KInt 100, VStr "INFY")] ∅ ∅ ∅ [] (KInt 100, VInt 5)
     = ([InstrumentError (KInt 100) "C1" AttributeError], Ok [])
  /\ row_step "C1" metadata ∅
       {[ 100%Z := {| holding_quantity := VStr "80"; buy_avg_price := VInt 0 |} ]} ∅ []
       (KInt 100, VInt 5)
     = ([InstrumentError (KInt 100) "C1" TypeError], Ok []).
Proof.
  split; [| split].
  - destruct (unbuildable_pair_logged_and_skipped "C1" metadata ∅ ∅ ∅ [expected_row]
                (KStr "INFY") (VInt 5)) as (H & _).
    apply H. vm_compute. reflexivity.
  - destruct (unbuildable_pair_logged_and_skipped "C1" [(KInt 100, VStr "INFY")] ∅ ∅ ∅ []
                (KInt 100) (VInt 5)) as (_ & H & _).
    apply (H 100%Z (VStr "INFY")); reflexivity.
  - destruct (unbuildable_pair_logged_and_skipped "C1" metadata ∅
                {[ 100%Z := {| holding_quantity := VStr "80"; buy_avg_price := VInt 0 |} ]}
                ∅ [] (KInt 100) (VInt 5)) as (_ & _ & H).
    apply (H 100%Z); [reflexivity | right; eexists; reflexivity | vm_compute; reflexivity].
Defined.


(** *** Closing the writer *)




End Facts.
